(** * asyncslot: the dual-loop scheduling bridge and the signal adapter

    A shallow embedding of

      - [src/asyncslot/_base_events.py]: the notifier object, the
        selectable protocol and [AsyncSlotBaseEventLoop];
      - [src/qtinter/_signals.py]: [copy_signal_arguments] and the handler
        that [asyncsignal] connects to a signal.

    Python objects are records, attribute assignment is a record update,
    and a method is a function from the state before the call to an
    outcome (a value or a raised exception), the state after the call and
    the calls the method made to its collaborators, in order.  A raised
    exception keeps the state reached so far, as in Python. *)

From Stdlib Require Import List ZArith QArith Bool Lia.
Import ListNotations.

Set Implicit Arguments.

(** ** Python outcomes *)

Module Py.

(** Messages of the [RuntimeError]s raised by the modelled code. *)
Inductive RuntimeMsg : Type :=
| NoQCoreApplication          (* 'An instance of QCoreApplication ...' *)
| QtLoopExited (code : Z)     (* "Qt event loop exited with code '{exit_code}'" *)
| EventLoopClosed             (* 'Event loop is closed' *)
| LoopAlreadyRunning          (* 'This event loop is already running' *)
| AnotherLoopRunning          (* 'Cannot run the event loop while another loop is running' *)
| CannotEnterTask             (* asyncio.tasks._enter_task *)
| CannotLeaveTask.            (* asyncio.tasks._leave_task *)

(** The exceptions that occur in the modelled code.  [UserError] stands
    for whatever a callback, a coroutine or the scheduler raises. *)
Inductive exn : Type :=
| AsyncSlotYield
| AssertionError (msg : nat)
| RuntimeError (msg : RuntimeMsg)
| AttributeError
| TypeError
| InvalidStateError
| ClosedError
| SystemExit
| KeyboardInterrupt
| UserError (tag : nat).

Inductive Result (A : Type) : Type :=
| Return (a : A)
| Raise (e : exn).
Arguments Return {A} a.
Arguments Raise {A} e.

Definition is_AsyncSlotYield (e : exn) : bool :=
  match e with AsyncSlotYield => true | _ => false end.

Definition returned {A} (r : Result A) : bool :=
  match r with Return _ => true | Raise _ => false end.

End Py.
Import Py.

(** ** [_AsyncSlotNotifierObject] *)

Module Notifier.
Section Defs.

(** [C] is the type of callbacks and [W] the state a callback acts on. *)
Context {C W : Type}.
Variable call : C -> W -> Result unit * W.

(** [_callback] is the attribute of the source; [connected] says whether
    the queued connection of [_notified] to [_on_notified] exists;
    [posted] counts the emissions queued by Qt and not yet delivered. *)
Record t : Type := mk {
  _callback : option C;
  connected : bool;
  posted : nat
}.

(** [__init__]: the assertion on the callback, then the queued connection. *)
Definition __init__ (callback : option C) : Result t :=
  match callback with
  | None => Raise (AssertionError 0)
  | Some cb => Return {| _callback := Some cb; connected := true; posted := 0 |}
  end.

(** [_on_notified]: the outcome, the state after, and the callbacks invoked. *)
Definition _on_notified (self : t) (w : W) : Result unit * W * list C :=
  match _callback self with
  | Some cb => let '(r, w') := call cb w in (r, w', [cb])
  | None => (Return tt, w, [])
  end.

(** [notify]: [self._notified.emit()]; an emission is queued per connection. *)
Definition notify (self : t) : t :=
  if connected self
  then {| _callback := _callback self; connected := true; posted := S (posted self) |}
  else self.

(** [close]. Emissions already queued stay in Qt's queue. *)
Definition close (self : t) : t :=
  match _callback self with
  | Some _ => {| _callback := None; connected := false; posted := posted self |}
  | None => self
  end.

(** Qt delivers queued emissions one at a time to [_on_notified]. *)
Fixpoint deliver (n : nat) (self : t) (w : W) : Result unit * W * list C :=
  match n with
  | O => (Return tt, w, [])
  | S n' =>
      match _on_notified self w with
      | (Return _, w', cs) =>
          let '(r, w'', cs') := deliver n' self w' in (r, w'', cs ++ cs')
      | (Raise e, w', cs) => (Raise e, w', cs)
      end
  end.

End Defs.
Arguments t C : clear implicits.
End Notifier.

(** ** [AsyncSlotSelectable] *)

Module Selectable.

Inductive State : Type := IDLE | BUSY | CLOSED.

(** How a call to [select] obtained its answer. *)
Inductive Wait : Type :=
| Synchronous        (* a readiness check that returns at once *)
| Blocking           (* the caller waited for I/O or the timeout *)
| Background.        (* the wait was handed to the worker *)

Section Defs.
(** [K]: a ready key with its mask; [N]: a notification target. *)
Context {K N : Type}.

Record t : Type := mk {
  state : State;
  notifier : option N;
  worker : option (option Q)   (* the timeout the pending worker waits with *)
}.

Definition is_zero (timeout : option Q) : bool :=
  match timeout with
  | Some x => Qeq_bool x 0
  | None => false
  end.

Definition some_ready (ready : list K) : bool :=
  match ready with [] => false | _ :: _ => true end.

(** Modelled from the spec: the body of [AsyncSlotSelectable.select],
    which in [src/asyncslot/_base_events.py] is only the protocol
    ([raise NotImplementedError]); the implementing selector is not
    among the sources.  [ready] is what the readiness check finds at
    the time of the call and [later] what a blocking wait returns.
    Spec 4.1: a zero timeout, known-ready I/O or no installed
    notification target give a synchronous check that returns
    immediately; otherwise the selectable goes [IDLE -> BUSY], the wait
    is dispatched to the background worker and the caller gets the
    yield signal.  After [close] calls fail with [ClosedError].  The
    docstring of the protocol adds that without a notifier a non-zero
    timeout with no ready I/O is a normal blocking select. *)
Definition select (timeout : option Q) (ready later : list K) (self : t)
  : Result (list K) * t * Wait :=
  match state self with
  | CLOSED => (Raise ClosedError, self, Synchronous)
  | _ =>
      if is_zero timeout || some_ready ready then
        (Return ready, self, Synchronous)
      else
        match notifier self with
        | None => (Return later, self, Blocking)
        | Some _ =>
            (Raise AsyncSlotYield,
             {| state := BUSY; notifier := notifier self;
                worker := Some timeout |},
             Background)
        end
  end.

(** Modelled from the spec: [AsyncSlotSelectable.set_notifier], also
    only a protocol method in the sources.  Spec 4.1 and the
    docstring: a [BUSY] selectable is woken up and the call returns
    only once it is back in [IDLE]; then the target is installed. *)
Definition set_notifier (target : option N) (self : t) : t :=
  match state self with
  | BUSY => {| state := IDLE; notifier := target; worker := None |}
  | _ => {| state := state self; notifier := target; worker := worker self |}
  end.

(** Modelled from the spec: [close], [IDLE|BUSY -> CLOSED]. *)
Definition close (self : t) : t :=
  {| state := CLOSED; notifier := notifier self; worker := None |}.

(** A sequence of [select] calls, each with its timeout and the
    readiness found; the states after each call are collected. *)
Fixpoint selects (calls : list (option Q * list K * list K)) (self : t)
  : list t :=
  match calls with
  | [] => []
  | (timeout, ready, later) :: rest =>
      let '(_, self', _) := select timeout ready later self in
      self' :: selects rest self'
  end.

(** Every timeout of a sequence of calls is zero. *)
Definition all_zero (calls : list (option Q * list K * list K)) : Prop :=
  Forall (fun c => exists q, fst (fst c) = Some q /\ q == 0) calls.

End Defs.
Arguments t N : clear implicits.
End Selectable.

(** ** [qtinter._signals]: the handler of [asyncsignal] *)

Module Signals.

(** An [asyncio.Future] as far as [asyncsignal] uses it. *)
Inductive Future (V : Type) : Type :=
| Pending
| Finished (result : V)
| Cancelled
| Failed (e : exn).
Arguments Pending {V}.
Arguments Finished {V} result.
Arguments Cancelled {V}.
Arguments Failed {V} e.

Definition done {V} (fut : Future V) : bool :=
  match fut with Pending => false | _ => true end.

(** [Future.set_result] as far as the result goes: it raises
    [InvalidStateError] on a done future and stores the result otherwise.
    The done callbacks it then hands to the loop are in
    [Awaited.set_result] below. *)
Definition set_result {V} (fut : Future V) (v : V) : Result (Future V) :=
  if done fut then Raise InvalidStateError else Return (Finished v).

Section Defs.
(** [Arg]: a signal argument.  [has_QVariant] is
    [hasattr(QtCore, 'QVariant')] and [QVariant_value arg] is
    [QtCore.QVariant(arg).value()]. *)
Context {Arg : Type}.
Variable has_QVariant : bool.
Variable QVariant_value : Arg -> Arg.

Definition copy_signal_arguments (args : list Arg) : list Arg :=
  if has_QVariant then map QVariant_value args else args.

(** The variables of a running [asyncsignal] that [handler] closes
    over: [fut], and [slot], the only strong reference to the
    [_QiSlotObject] (true while it is held). *)
Record Frame : Type := mkFrame {
  fut : Future (list Arg);
  slot : bool
}.

(** [asyncsignal] up to [await fut]. *)
Definition asyncsignal_start : Frame :=
  {| fut := Pending; slot := true |}.

(** [handler], called with the emitted arguments.  Next to the outcome
    and the frame, the values passed to [fut.set_result] are returned. *)
Definition handler (args : list Arg) (fr : Frame)
  : Result unit * Frame * list (list Arg) :=
  if negb (done (fut fr)) then
    let v := copy_signal_arguments args in
    match set_result (fut fr) v with
    | Return fut' => (Return tt, {| fut := fut'; slot := false |}, [v])
    | Raise e => (Raise e, fr, [v])
    end
  else (Return tt, {| fut := fut fr; slot := false |}, []).

(** The handler invoked once per emission, in order; an exception
    ends the sequence. *)
Fixpoint invocations (emissions : list (list Arg)) (fr : Frame)
  : Result unit * Frame * list (list Arg) :=
  match emissions with
  | [] => (Return tt, fr, [])
  | args :: rest =>
      match handler args fr with
      | (Return _, fr', sets) =>
          let '(r, fr'', sets') := invocations rest fr' in
          (r, fr'', sets ++ sets')
      | (Raise e, fr', sets) => (Raise e, fr', sets)
      end
  end.

(** The [finally] clause of [asyncsignal]: [slot = None]. *)
Definition asyncsignal_finally (fr : Frame) : Frame :=
  {| fut := fut fr; slot := false |}.

End Defs.
End Signals.

(** ** [AsyncSlotBaseEventLoop] *)

Module Bridge.

Definition TaskId : Type := nat.

(** What a [Handle] runs: the [__step] of a task, or another callable. *)
Inductive Callback : Type :=
| Step (task : TaskId)
| Plain (tag : nat).

(** [asyncio.events.Handle]: the object identity and the callback; the
    [_cancelled] flag of the object is kept in the loop state. *)
Record Handle : Type := mkHandle {
  hid : nat;
  callback : Callback
}.

(** The bound method given to [create_notifier]. *)
Inductive BoundMethod : Type := process_asyncio_events_method.

(** The reference to the loop's notifier that the selector holds. *)
Inductive NotifierRef : Type := loop_notifier.

(** A pair (firstiter, finalizer) of asyncgen hooks: the ones found by
    [__enter__], or the loop's own. *)
Inductive Hooks : Type :=
| SystemHooks (n : nat)
| LoopHooks.

(** A loop as value of [events._get_running_loop()]. *)
Inductive LoopRef : Type := Self | OtherLoop.

(** [QtCore.QEventLoop]: the code given to [exit], if any. *)
Record QEventLoop : Type := mkQEventLoop {
  exit_code : option Z
}.

(** What a coroutine argument of [create_task] may be. *)
Inductive Coro : Type :=
| Coroutine (task : TaskId)
| NotACoroutine.

(** The attributes of the loop (the name-mangled ones of
    [AsyncSlotBaseEventLoop.__init__], then the inherited ones the source
    touches), followed by the interpreter-wide state the methods read. *)
Record Loop : Type := mkLoop {
  __qt_event_loop : option QEventLoop;
    (* the nested QEventLoop of run_forever, None otherwise *)
  __notifier : option (Notifier.t BoundMethod);
    (* the notifier attached to the selector while running *)
  __blocked_in_select : bool;
    (* the last _run_once raised AsyncSlotYield *)
  __run_once_error : option exn;
    (* the exception of __process_asyncio_events to propagate *)
  __old_agen_hooks : option Hooks;
    (* the asyncgen hooks saved by __enter__ *)
  __call_soon_eagerly : bool;
    (* call_soon runs the callback at once *)
  _closed : bool;
    (* BaseEventLoop._closed *)
  _stopping : bool;
    (* BaseEventLoop._stopping *)
  _thread_id : option nat;
    (* BaseEventLoop._thread_id *)
  _ready : list Handle;
    (* BaseEventLoop._ready *)
  _selector : Selectable.t NotifierRef;
    (* self._selector *)
  next_handle : nat;
    (* identity of the next Handle object *)
  cancelled : list nat;
    (* the handles whose _cancelled is set *)
  writes_to_self : nat;
    (* bytes sent by _write_to_self *)
  running_loop : option LoopRef;
    (* events._get_running_loop() *)
  current_task : option TaskId;
    (* asyncio.tasks.current_task(self) *)
  asyncgen_hooks : Hooks;
    (* sys.get_asyncgen_hooks() *)
  qapp : bool;
    (* QCoreApplication.instance() is not None *)
  ident : nat
    (* threading.get_ident() *)
}.

Definition set_qt_event_loop (v : option QEventLoop) (l : Loop) : Loop :=
  {| __qt_event_loop := v; __notifier := __notifier l;
     __blocked_in_select := __blocked_in_select l;
     __run_once_error := __run_once_error l;
     __old_agen_hooks := __old_agen_hooks l;
     __call_soon_eagerly := __call_soon_eagerly l; _closed := _closed l;
     _stopping := _stopping l; _thread_id := _thread_id l;
     _ready := _ready l; _selector := _selector l;
     next_handle := next_handle l; cancelled := cancelled l;
     writes_to_self := writes_to_self l; running_loop := running_loop l;
     current_task := current_task l; asyncgen_hooks := asyncgen_hooks l;
     qapp := qapp l; ident := ident l |}.

Definition set_notifier (v : option (Notifier.t BoundMethod)) (l : Loop) : Loop :=
  {| __qt_event_loop := __qt_event_loop l; __notifier := v;
     __blocked_in_select := __blocked_in_select l;
     __run_once_error := __run_once_error l;
     __old_agen_hooks := __old_agen_hooks l;
     __call_soon_eagerly := __call_soon_eagerly l; _closed := _closed l;
     _stopping := _stopping l; _thread_id := _thread_id l;
     _ready := _ready l; _selector := _selector l;
     next_handle := next_handle l; cancelled := cancelled l;
     writes_to_self := writes_to_self l; running_loop := running_loop l;
     current_task := current_task l; asyncgen_hooks := asyncgen_hooks l;
     qapp := qapp l; ident := ident l |}.

Definition set_blocked_in_select (v : bool) (l : Loop) : Loop :=
  {| __qt_event_loop := __qt_event_loop l; __notifier := __notifier l;
     __blocked_in_select := v; __run_once_error := __run_once_error l;
     __old_agen_hooks := __old_agen_hooks l;
     __call_soon_eagerly := __call_soon_eagerly l; _closed := _closed l;
     _stopping := _stopping l; _thread_id := _thread_id l;
     _ready := _ready l; _selector := _selector l;
     next_handle := next_handle l; cancelled := cancelled l;
     writes_to_self := writes_to_self l; running_loop := running_loop l;
     current_task := current_task l; asyncgen_hooks := asyncgen_hooks l;
     qapp := qapp l; ident := ident l |}.

Definition set_run_once_error (v : option exn) (l : Loop) : Loop :=
  {| __qt_event_loop := __qt_event_loop l; __notifier := __notifier l;
     __blocked_in_select := __blocked_in_select l; __run_once_error := v;
     __old_agen_hooks := __old_agen_hooks l;
     __call_soon_eagerly := __call_soon_eagerly l; _closed := _closed l;
     _stopping := _stopping l; _thread_id := _thread_id l;
     _ready := _ready l; _selector := _selector l;
     next_handle := next_handle l; cancelled := cancelled l;
     writes_to_self := writes_to_self l; running_loop := running_loop l;
     current_task := current_task l; asyncgen_hooks := asyncgen_hooks l;
     qapp := qapp l; ident := ident l |}.

Definition set_old_agen_hooks (v : option Hooks) (l : Loop) : Loop :=
  {| __qt_event_loop := __qt_event_loop l; __notifier := __notifier l;
     __blocked_in_select := __blocked_in_select l;
     __run_once_error := __run_once_error l; __old_agen_hooks := v;
     __call_soon_eagerly := __call_soon_eagerly l; _closed := _closed l;
     _stopping := _stopping l; _thread_id := _thread_id l;
     _ready := _ready l; _selector := _selector l;
     next_handle := next_handle l; cancelled := cancelled l;
     writes_to_self := writes_to_self l; running_loop := running_loop l;
     current_task := current_task l; asyncgen_hooks := asyncgen_hooks l;
     qapp := qapp l; ident := ident l |}.

Definition set_call_soon_eagerly (v : bool) (l : Loop) : Loop :=
  {| __qt_event_loop := __qt_event_loop l; __notifier := __notifier l;
     __blocked_in_select := __blocked_in_select l;
     __run_once_error := __run_once_error l;
     __old_agen_hooks := __old_agen_hooks l; __call_soon_eagerly := v;
     _closed := _closed l; _stopping := _stopping l;
     _thread_id := _thread_id l; _ready := _ready l;
     _selector := _selector l; next_handle := next_handle l;
     cancelled := cancelled l; writes_to_self := writes_to_self l;
     running_loop := running_loop l; current_task := current_task l;
     asyncgen_hooks := asyncgen_hooks l; qapp := qapp l; ident := ident l |}.

Definition set_stopping (v : bool) (l : Loop) : Loop :=
  {| __qt_event_loop := __qt_event_loop l; __notifier := __notifier l;
     __blocked_in_select := __blocked_in_select l;
     __run_once_error := __run_once_error l;
     __old_agen_hooks := __old_agen_hooks l;
     __call_soon_eagerly := __call_soon_eagerly l; _closed := _closed l;
     _stopping := v; _thread_id := _thread_id l; _ready := _ready l;
     _selector := _selector l; next_handle := next_handle l;
     cancelled := cancelled l; writes_to_self := writes_to_self l;
     running_loop := running_loop l; current_task := current_task l;
     asyncgen_hooks := asyncgen_hooks l; qapp := qapp l; ident := ident l |}.

Definition set_thread_id (v : option nat) (l : Loop) : Loop :=
  {| __qt_event_loop := __qt_event_loop l; __notifier := __notifier l;
     __blocked_in_select := __blocked_in_select l;
     __run_once_error := __run_once_error l;
     __old_agen_hooks := __old_agen_hooks l;
     __call_soon_eagerly := __call_soon_eagerly l; _closed := _closed l;
     _stopping := _stopping l; _thread_id := v; _ready := _ready l;
     _selector := _selector l; next_handle := next_handle l;
     cancelled := cancelled l; writes_to_self := writes_to_self l;
     running_loop := running_loop l; current_task := current_task l;
     asyncgen_hooks := asyncgen_hooks l; qapp := qapp l; ident := ident l |}.

Definition set_ready (v : list Handle) (l : Loop) : Loop :=
  {| __qt_event_loop := __qt_event_loop l; __notifier := __notifier l;
     __blocked_in_select := __blocked_in_select l;
     __run_once_error := __run_once_error l;
     __old_agen_hooks := __old_agen_hooks l;
     __call_soon_eagerly := __call_soon_eagerly l; _closed := _closed l;
     _stopping := _stopping l; _thread_id := _thread_id l; _ready := v;
     _selector := _selector l; next_handle := next_handle l;
     cancelled := cancelled l; writes_to_self := writes_to_self l;
     running_loop := running_loop l; current_task := current_task l;
     asyncgen_hooks := asyncgen_hooks l; qapp := qapp l; ident := ident l |}.

Definition set_selector (v : Selectable.t NotifierRef) (l : Loop) : Loop :=
  {| __qt_event_loop := __qt_event_loop l; __notifier := __notifier l;
     __blocked_in_select := __blocked_in_select l;
     __run_once_error := __run_once_error l;
     __old_agen_hooks := __old_agen_hooks l;
     __call_soon_eagerly := __call_soon_eagerly l; _closed := _closed l;
     _stopping := _stopping l; _thread_id := _thread_id l;
     _ready := _ready l; _selector := v; next_handle := next_handle l;
     cancelled := cancelled l; writes_to_self := writes_to_self l;
     running_loop := running_loop l; current_task := current_task l;
     asyncgen_hooks := asyncgen_hooks l; qapp := qapp l; ident := ident l |}.

Definition set_next_handle (v : nat) (l : Loop) : Loop :=
  {| __qt_event_loop := __qt_event_loop l; __notifier := __notifier l;
     __blocked_in_select := __blocked_in_select l;
     __run_once_error := __run_once_error l;
     __old_agen_hooks := __old_agen_hooks l;
     __call_soon_eagerly := __call_soon_eagerly l; _closed := _closed l;
     _stopping := _stopping l; _thread_id := _thread_id l;
     _ready := _ready l; _selector := _selector l; next_handle := v;
     cancelled := cancelled l; writes_to_self := writes_to_self l;
     running_loop := running_loop l; current_task := current_task l;
     asyncgen_hooks := asyncgen_hooks l; qapp := qapp l; ident := ident l |}.

Definition set_cancelled (v : list nat) (l : Loop) : Loop :=
  {| __qt_event_loop := __qt_event_loop l; __notifier := __notifier l;
     __blocked_in_select := __blocked_in_select l;
     __run_once_error := __run_once_error l;
     __old_agen_hooks := __old_agen_hooks l;
     __call_soon_eagerly := __call_soon_eagerly l; _closed := _closed l;
     _stopping := _stopping l; _thread_id := _thread_id l;
     _ready := _ready l; _selector := _selector l;
     next_handle := next_handle l; cancelled := v;
     writes_to_self := writes_to_self l; running_loop := running_loop l;
     current_task := current_task l; asyncgen_hooks := asyncgen_hooks l;
     qapp := qapp l; ident := ident l |}.

Definition set_writes_to_self (v : nat) (l : Loop) : Loop :=
  {| __qt_event_loop := __qt_event_loop l; __notifier := __notifier l;
     __blocked_in_select := __blocked_in_select l;
     __run_once_error := __run_once_error l;
     __old_agen_hooks := __old_agen_hooks l;
     __call_soon_eagerly := __call_soon_eagerly l; _closed := _closed l;
     _stopping := _stopping l; _thread_id := _thread_id l;
     _ready := _ready l; _selector := _selector l;
     next_handle := next_handle l; cancelled := cancelled l;
     writes_to_self := v; running_loop := running_loop l;
     current_task := current_task l; asyncgen_hooks := asyncgen_hooks l;
     qapp := qapp l; ident := ident l |}.

Definition set_running_loop (v : option LoopRef) (l : Loop) : Loop :=
  {| __qt_event_loop := __qt_event_loop l; __notifier := __notifier l;
     __blocked_in_select := __blocked_in_select l;
     __run_once_error := __run_once_error l;
     __old_agen_hooks := __old_agen_hooks l;
     __call_soon_eagerly := __call_soon_eagerly l; _closed := _closed l;
     _stopping := _stopping l; _thread_id := _thread_id l;
     _ready := _ready l; _selector := _selector l;
     next_handle := next_handle l; cancelled := cancelled l;
     writes_to_self := writes_to_self l; running_loop := v;
     current_task := current_task l; asyncgen_hooks := asyncgen_hooks l;
     qapp := qapp l; ident := ident l |}.

Definition set_current_task (v : option TaskId) (l : Loop) : Loop :=
  {| __qt_event_loop := __qt_event_loop l; __notifier := __notifier l;
     __blocked_in_select := __blocked_in_select l;
     __run_once_error := __run_once_error l;
     __old_agen_hooks := __old_agen_hooks l;
     __call_soon_eagerly := __call_soon_eagerly l; _closed := _closed l;
     _stopping := _stopping l; _thread_id := _thread_id l;
     _ready := _ready l; _selector := _selector l;
     next_handle := next_handle l; cancelled := cancelled l;
     writes_to_self := writes_to_self l; running_loop := running_loop l;
     current_task := v; asyncgen_hooks := asyncgen_hooks l; qapp := qapp l;
     ident := ident l |}.

Definition set_asyncgen_hooks (v : Hooks) (l : Loop) : Loop :=
  {| __qt_event_loop := __qt_event_loop l; __notifier := __notifier l;
     __blocked_in_select := __blocked_in_select l;
     __run_once_error := __run_once_error l;
     __old_agen_hooks := __old_agen_hooks l;
     __call_soon_eagerly := __call_soon_eagerly l; _closed := _closed l;
     _stopping := _stopping l; _thread_id := _thread_id l;
     _ready := _ready l; _selector := _selector l;
     next_handle := next_handle l; cancelled := cancelled l;
     writes_to_self := writes_to_self l; running_loop := running_loop l;
     current_task := current_task l; asyncgen_hooks := v; qapp := qapp l;
     ident := ident l |}.
(** The calls a method makes to its collaborators. *)
Inductive Event : Type :=
| Ev_run_once                      (* self._run_once() *)
| Ev_notify                        (* self.__notifier.notify() *)
| Ev_qt_exit (code : Z)            (* self.__qt_event_loop.exit(code) *)
| Ev_qt_exec                       (* self.__qt_event_loop.exec() *)
| Ev_write_to_self                 (* self._write_to_self() *)
| Ev_super_stop                    (* super().stop() *)
| Ev_super_call_soon (h : Handle)  (* super().call_soon(...) *)
| Ev_leave_task (t : TaskId)       (* asyncio.tasks._leave_task(self, t) *)
| Ev_enter_task (t : TaskId)       (* asyncio.tasks._enter_task(self, t) *)
| Ev_handle_run (h : Handle)       (* handle._run() *)
| Ev_handle_cancel (h : Handle)    (* handle.cancel() *)
| Ev_enter                         (* self.__enter__() *)
| Ev_exit                          (* self.__exit__(...) *)
| Ev_set_notifier (installed : bool) (* self._selector.set_notifier(...) *)
| Ev_notifier_close                (* self.__notifier.close() *)
| Ev_print_traceback.              (* print(traceback.format_exc(), ...) *)

(** The code the bridge calls and does not define: the inherited batch
    of the scheduler, the execution of a handle, and the foreign loop.
    Each may change any attribute of the loop. *)
Class Collaborators : Type := {
  _run_once : Loop -> Result unit * Loop;
    (* asyncio.BaseEventLoop._run_once *)
  Handle__run : Handle -> Loop -> Result unit * Loop;
    (* asyncio.events.Handle._run *)
  QEventLoop_exec : Loop -> Z * Loop
    (* QEventLoop.exec, or exec_ where the binding names it so *)
}.

(** *** Methods as state transformers *)

Definition M (A : Type) : Type := Loop -> Result A * Loop * list Event.

Definition ret {A} (a : A) : M A := fun l => (Return a, l, []).

Definition bind {A B} (m : M A) (f : A -> M B) : M B :=
  fun l =>
    match m l with
    | (Return a, l', t) => let '(r, l'', t') := f a l' in (r, l'', t ++ t')
    | (Raise e, l', t) => (Raise e, l', t)
    end.

Definition raise {A} (e : exn) : M A := fun l => (Raise e, l, []).

Definition get : M Loop := fun l => (Return l, l, []).

Definition modify (f : Loop -> Loop) : M unit := fun l => (Return tt, f l, []).

Definition emit (ev : Event) : M unit := fun l => (Return tt, l, [ev]).

(** A call to a collaborator, recorded as [ev]. *)
Definition extern {A} (ev : Event) (f : Loop -> Result A * Loop) : M A :=
  fun l => let '(r, l') := f l in (r, l', [ev]).

Declare Scope py_scope.
Delimit Scope py_scope with py.
Notation "x <- m ;; k" := (bind m (fun x => k))
  (at level 61, m at next level, right associativity) : py_scope.
Notation "m ;; k" := (bind m (fun _ => k))
  (at level 61, right associativity) : py_scope.
Local Open Scope py_scope.

(** [try: body / except BaseException as e: handler e / else: orelse]. *)
Definition try_except_else {A B} (body : M A) (handler : exn -> M B)
  (orelse : A -> M B) : M B :=
  fun l =>
    match body l with
    | (Return a, l', t) =>
        let '(r, l'', t') := orelse a l' in (r, l'', t ++ t')
    | (Raise e, l', t) =>
        let '(r, l'', t') := handler e l' in (r, l'', t ++ t')
    end.

(** [try: body / finally: final]: an exception of [final] replaces the
    outcome of [body]. *)
Definition try_finally {A} (body : M A) (final : M unit) : M A :=
  fun l =>
    let '(r, l', t) := body l in
    match final l' with
    | (Return _, l'', t') => (r, l'', t ++ t')
    | (Raise e, l'', t') => (Raise e, l'', t ++ t')
    end.

(** [assert cond, msg]. *)
Definition assert (cond : Loop -> bool) (msg : nat) : M unit :=
  fun l => if cond l then (Return tt, l, [])
           else (Raise (AssertionError msg), l, []).

(** [if cond: body], with no [else]. *)
Definition when (cond : bool) (body : M unit) : M unit :=
  if cond then body else ret tt.

(** *** Inherited from [asyncio], and the Qt objects *)

Definition is_closed (l : Loop) : bool := _closed l.

Definition is_running (l : Loop) : bool :=
  match _thread_id l with Some _ => true | None => false end.

(** [BaseEventLoop._check_closed]. *)
Definition _check_closed : M unit :=
  l <- get ;;
  if _closed l then raise (RuntimeError EventLoopClosed) else ret tt.

(** [BaseEventLoop._check_running]. *)
Definition _check_running : M unit :=
  l <- get ;;
  if is_running l then raise (RuntimeError LoopAlreadyRunning)
  else
    match running_loop l with
    | Some _ => raise (RuntimeError AnotherLoopRunning)
    | None => ret tt
    end.

(** [_write_to_self] of the selector and proactor loops: a byte is sent
    to the self-pipe, unless the pipe is gone ([self._csock is None]),
    which it is from [close] on; an [OSError] is swallowed there. *)
Definition _write_to_self : M unit :=
  l <- get ;;
  when (negb (_closed l))
       (modify (fun l => set_writes_to_self (S (writes_to_self l)) l)) ;;
  emit Ev_write_to_self.

(** [BaseEventLoop.stop]. *)
Definition BaseEventLoop_stop : M unit :=
  modify (set_stopping true) ;;
  emit Ev_super_stop.

(** [BaseEventLoop.call_soon] outside debug mode: the closed check, then
    a new [Handle] appended to [_ready]. *)
Definition BaseEventLoop_call_soon (cb : Callback) : M Handle :=
  _check_closed ;;
  l <- get ;;
  let handle := {| hid := next_handle l; callback := cb |} in
  modify (fun l => set_next_handle (S (next_handle l))
                     (set_ready (_ready l ++ [handle]) l)) ;;
  emit (Ev_super_call_soon handle) ;;
  ret handle.

Definition is_cancelled (h : Handle) (l : Loop) : bool :=
  existsb (Nat.eqb (hid h)) (cancelled l).

(** [Handle.cancel]. *)
Definition Handle_cancel (h : Handle) : M unit :=
  l <- get ;;
  when (negb (is_cancelled h l))
       (modify (fun l => set_cancelled (hid h :: cancelled l) l)) ;;
  emit (Ev_handle_cancel h).

(** [asyncio.tasks._leave_task]. *)
Definition _leave_task (task : TaskId) : M unit :=
  emit (Ev_leave_task task) ;;
  l <- get ;;
  match current_task l with
  | Some t =>
      if Nat.eqb t task then modify (set_current_task None)
      else raise (RuntimeError CannotLeaveTask)
  | None => raise (RuntimeError CannotLeaveTask)
  end.

(** [asyncio.tasks._enter_task]. *)
Definition _enter_task (task : TaskId) : M unit :=
  emit (Ev_enter_task task) ;;
  l <- get ;;
  match current_task l with
  | Some _ => raise (RuntimeError CannotEnterTask)
  | None => modify (set_current_task (Some task))
  end.

(** [QEventLoop.exit(code)] on the loop held in [__qt_event_loop]. *)
Definition QEventLoop_exit (code : Z) : M unit :=
  modify (set_qt_event_loop (Some {| exit_code := Some code |})) ;;
  emit (Ev_qt_exit code).

(** [self.__notifier.notify()]. *)
Definition notifier_notify : M unit :=
  l <- get ;;
  match __notifier l with
  | None => raise AttributeError
  | Some n =>
      modify (set_notifier (Some (Notifier.notify n))) ;;
      emit Ev_notify
  end.

(** [create_notifier]: an instance of the notifier class, which the
    function defines on its first call and keeps. *)
Definition create_notifier (callback : option BoundMethod)
  : Result (Notifier.t BoundMethod) :=
  Notifier.__init__ callback.

(** One step of the loop over [_ready] at the end of
    [BaseEventLoop._run_once]: a cancelled handle is skipped. *)
Definition ready_step `{Collaborators} (h : Handle) : M unit :=
  l <- get ;;
  if is_cancelled h l then ret tt
  else extern (Ev_handle_run h) (Handle__run h).

(** *** Custom methods of the bridge *)

(** [__process_asyncio_events]. *)
Definition __process_asyncio_events `{Collaborators} : M unit :=
  assert (fun l => negb (is_closed l)) 0 ;;
  assert is_running 1 ;;
  modify (set_blocked_in_select false) ;;
  try_except_else
    (extern Ev_run_once _run_once)
    (fun exc =>
       if is_AsyncSlotYield exc then
         modify (set_blocked_in_select true)
       else
         modify (set_run_once_error (Some exc)) ;;
         l <- get ;;
         match __qt_event_loop l with
         | Some _ => QEventLoop_exit 1
         | None => raise exc
         end)
    (fun _ =>
       l <- get ;;
       if _stopping l then
         match __qt_event_loop l with
         | Some _ => QEventLoop_exit 0     (* return *)
         | None => notifier_notify         (* pass, fall through *)
         end
       else notifier_notify).

(** [__enter__].  [_set_coroutine_origin_tracking] touches none of the
    attributes kept here. *)
Definition __enter__ : M unit :=
  emit Ev_enter ;;
  _check_closed ;;
  _check_running ;;
  modify (fun l => set_thread_id (Some (ident l)) l) ;;
  l <- get ;;
  let old_agen_hooks := asyncgen_hooks l in
  modify (set_asyncgen_hooks LoopHooks) ;;
  modify (set_old_agen_hooks (Some old_agen_hooks)) ;;
  match create_notifier (Some process_asyncio_events_method) with
  | Raise e => raise e
  | Return n =>
      modify (set_notifier (Some n)) ;;
      notifier_notify ;;
      modify (fun l => set_selector
                (Selectable.set_notifier (Some loop_notifier) (_selector l)) l) ;;
      emit (Ev_set_notifier true) ;;
      modify (set_running_loop (Some Self))
  end.

(** [__exit__].  [sys.set_asyncgen_hooks( *old_agen_hooks)] cannot unpack
    [None]. *)
Definition __exit__ : M unit :=
  emit Ev_exit ;;
  l <- get ;;
  let old_agen_hooks := __old_agen_hooks l in
  modify (set_old_agen_hooks None) ;;
  match __notifier l with
  | Some n =>
      modify (fun l => set_selector
                (Selectable.set_notifier None (_selector l)) l) ;;
      emit (Ev_set_notifier false) ;;
      modify (set_notifier (Some (Notifier.close n))) ;;
      emit Ev_notifier_close ;;
      modify (set_notifier None)
  | None => ret tt
  end ;;
  modify (set_stopping false) ;;
  modify (set_thread_id None) ;;
  modify (set_running_loop None) ;;
  match old_agen_hooks with
  | Some hooks => modify (set_asyncgen_hooks hooks)
  | None => raise TypeError
  end.

(** [with self: body]; [__exit__] returns [None], so an exception of the
    body propagates. *)
Definition with_self {A} (body : M A) : M A :=
  __enter__ ;;
  try_finally body __exit__.

(** [run_forever]. *)
Definition run_forever `{Collaborators} : M unit :=
  l <- get ;;
  if negb (qapp l) then raise (RuntimeError NoQCoreApplication)
  else
    with_self
      (try_finally
         (try_except_else
            (modify (set_qt_event_loop (Some {| exit_code := None |})) ;;
             exit_code <- extern Ev_qt_exec
                            (fun l => let '(c, l') := QEventLoop_exec l in
                                      (Return c, l')) ;;
             if negb (Z.eqb exit_code 0) then
               l <- get ;;
               match __run_once_error l with
               | Some e => raise e
               | None => raise (RuntimeError (QtLoopExited exit_code))
               end
             else ret tt)
            (fun exc => emit Ev_print_traceback ;; raise exc)
            (fun _ => ret tt))
         (modify (set_run_once_error None) ;;
          modify (set_qt_event_loop None))).

(** [stop]. *)
Definition stop : M unit :=
  l <- get ;;
  when (__blocked_in_select l) _write_to_self ;;
  BaseEventLoop_stop.

(** [call_soon]. *)
Definition call_soon `{Collaborators} (cb : Callback) : M Handle :=
  l <- get ;;
  when (__blocked_in_select l) _write_to_self ;;
  handle <- BaseEventLoop_call_soon cb ;;
  l <- get ;;
  when (__call_soon_eagerly l)
    (modify (set_call_soon_eagerly false) ;;
     l <- get ;;
     let current_task := current_task l in
     match current_task with
     | Some t => _leave_task t
     | None => ret tt
     end ;;
     try_finally
       (extern (Ev_handle_run handle) (Handle__run handle))
       (Handle_cancel handle ;;
        match current_task with
        | Some t => _enter_task t
        | None => ret tt
        end)) ;;
  ret handle.

(** [BaseEventLoop.create_task] with the default task factory: the
    closed check, then [Task.__init__], which refuses what is not a
    coroutine and schedules the first [__step] with [call_soon]. *)
Definition create_task `{Collaborators} (coro : Coro) : M TaskId :=
  _check_closed ;;
  match coro with
  | NotACoroutine => raise TypeError
  | Coroutine task => call_soon (Step task) ;; ret task
  end.

(** [run_task]; both branches on [name] create the task. *)
Definition run_task `{Collaborators} (coro : Coro) (name : option nat)
  : M TaskId :=
  try_finally
    (modify (set_call_soon_eagerly true) ;;
     match name with
     | None => create_task coro
     | Some _ => create_task coro
     end)
    (modify (set_call_soon_eagerly false)).

(** The outcome of [run_forever] for an exit code of the foreign loop
    and the error stored when it exited. *)
Definition outcome_of (code : Z) (stored : option exn) : Result unit :=
  if Z.eqb code 0 then Return tt
  else match stored with
       | Some e => Raise e
       | None => Raise (RuntimeError (QtLoopExited code))
       end.

(** *** The states of an eager [call_soon]

    Named for the statements below: the loop after the wake-up (of a
    loop that is not closed), the new handle, the loop after
    [super().call_soon], the loop on which the handle runs, and the
    effect of [Handle.cancel]. *)

Definition woken (l : Loop) : Loop :=
  if __blocked_in_select l
  then set_writes_to_self (S (writes_to_self l)) l
  else l.

Definition new_handle (cb : Callback) (l : Loop) : Handle :=
  {| hid := next_handle l; callback := cb |}.

Definition scheduled (cb : Callback) (l : Loop) : Loop :=
  set_next_handle (S (next_handle l))
    (set_ready (_ready (woken l) ++ [new_handle cb l]) (woken l)).

Definition suspended (cb : Callback) (l : Loop) : Loop :=
  match current_task l with
  | Some _ =>
      set_current_task None (set_call_soon_eagerly false (scheduled cb l))
  | None => set_call_soon_eagerly false (scheduled cb l)
  end.

Definition cancel (h : Handle) (l : Loop) : Loop :=
  if is_cancelled h l then l else set_cancelled (hid h :: cancelled l) l.

Definition wake_events (l : Loop) : list Event :=
  if __blocked_in_select l then [Ev_write_to_self] else [].

Definition leave_events (l : Loop) : list Event :=
  match current_task l with Some t => [Ev_leave_task t] | None => [] end.

Definition enter_events (l : Loop) : list Event :=
  match current_task l with Some t => [Ev_enter_task t] | None => [] end.

(** The outcome of the eager step as outcome of [call_soon]. *)
Definition handle_or_raise (h : Handle) (r : Result unit) : Result Handle :=
  match r with Return _ => Return h | Raise e => Raise e end.

End Bridge.

(** ** Concrete loops and collaborators *)

Module Sample.
Import Bridge.

Definition idle_selectable : Selectable.t nat :=
  {| Selectable.state := Selectable.IDLE;
     Selectable.notifier := Some 7%nat;
     Selectable.worker := None |}.

(** A loop as [AsyncSlotBaseEventLoop.__init__] leaves it, in a process
    with a [QCoreApplication]. *)
Definition new_loop : Loop :=
  {| __qt_event_loop := None; __notifier := None;
     __blocked_in_select := false; __run_once_error := None;
     __old_agen_hooks := None; __call_soon_eagerly := false;
     _closed := false; _stopping := false; _thread_id := None;
     _ready := [];
     _selector := {| Selectable.state := Selectable.IDLE;
                     Selectable.notifier := None;
                     Selectable.worker := None |};
     next_handle := 0; cancelled := []; writes_to_self := 0;
     running_loop := None; current_task := None;
     asyncgen_hooks := SystemHooks 0; qapp := true; ident := 1 |}.

(** The loop after [__enter__], attached. *)
Definition attached_loop : Loop := snd (fst (__enter__ new_loop)).

(** The loop after [__enter__] inside [run_forever], nested. *)
Definition nested_loop : Loop :=
  set_qt_event_loop (Some {| exit_code := None |}) attached_loop.

(** Collaborators given by a batch, a handle execution and a foreign
    loop. *)
Definition collaborators (batch : Loop -> Result unit * Loop)
  (run : Handle -> Loop -> Result unit * Loop) (exec : Loop -> Z * Loop)
  : Collaborators :=
  {| _run_once := batch; Handle__run := run; QEventLoop_exec := exec |}.

Definition run_nothing (h : Handle) (l : Loop) : Result unit * Loop :=
  (Return tt, l).

Definition exec_nothing (l : Loop) : Z * Loop := (0%Z, l).

(** A batch in which the poll yields. *)
Definition yielding : Collaborators :=
  collaborators (fun l => (Raise AsyncSlotYield, l)) run_nothing exec_nothing.

(** A batch that completes. *)
Definition completing : Collaborators :=
  collaborators (fun l => (Return tt, l)) run_nothing exec_nothing.

(** A batch in which a callback calls [stop]. *)
Definition stopping : Collaborators :=
  collaborators (fun l => (Return tt, snd (fst (stop l))))
    run_nothing exec_nothing.

(** A batch out of which [UserError 5] escapes. *)
Definition failing : Collaborators :=
  collaborators (fun l => (Raise (UserError 5), l)) run_nothing exec_nothing.

(** A handle whose run is interrupted. *)
Definition interrupted : Collaborators :=
  collaborators (fun l => (Return tt, l))
    (fun _ l => (Raise KeyboardInterrupt, l)) exec_nothing.

(** The attached loop inside [run_task], called from task 4. *)
Definition eager_loop : Loop :=
  set_call_soon_eagerly true (set_current_task (Some 4%nat) attached_loop).

(** The nested loop after a tick that yielded. *)
Definition blocked_loop : Loop := set_blocked_in_select true nested_loop.

(** A foreign loop for the samples: while no exit code is set it
    delivers one queued notification to [_on_notified] (an exception
    escaping the slot is dropped there); when nothing is queued the
    application quits the loop from outside with code [quit]. *)
Fixpoint exec_ticks (E : Collaborators) (quit : Z) (fuel : nat) (l : Loop)
  : Z * Loop :=
  match fuel with
  | O => (quit, l)
  | S fuel' =>
      match __qt_event_loop l with
      | Some {| exit_code := Some code |} => (code, l)
      | _ =>
          match __notifier l with
          | Some n =>
              match Notifier.posted n with
              | O => (quit, l)
              | S k =>
                  let taken :=
                    {| Notifier._callback := Notifier._callback n;
                       Notifier.connected := Notifier.connected n;
                       Notifier.posted := k |} in
                  let '(_, l', _) :=
                    Notifier._on_notified
                      (fun _ l0 =>
                         let '(r, l1, _) := @__process_asyncio_events E l0 in
                         (r, l1))
                      n (set_notifier (Some taken) l) in
                  exec_ticks E quit fuel' l'
              end
          | None => (quit, l)
          end
      end
  end.

(** The same batches under a foreign loop that runs the ticks. *)
Definition nested (E : Collaborators) (quit : Z) : Collaborators :=
  collaborators (@_run_once E) (@Handle__run E) (exec_ticks E quit 8).

End Sample.

(** ** Timers, and the delivery of queued notifications *)

Module Scheduling.
Import Bridge.
Local Open Scope py_scope.

(** A call to an inherited method that is not among the recorded
    events. *)
Definition inherited {A} (f : Loop -> Result A * Loop) : M A :=
  fun l => let '(r, l') := f l in (r, l', []).

Section Timers.

(** [Timer]: an [asyncio.TimerHandle]; [Time]: a reading of the loop's
    clock or a delay, with [add] their sum; [time l] is [self.time()].
    [BaseEventLoop_call_at] is the inherited [call_at]: the check of
    [when], the closed check, and a new timer pushed on [_scheduled].  It
    calls no method that the bridge overrides, and may change any
    attribute of the loop. *)
Context {Timer Time : Type}.
Variable time : Loop -> Time.
Variable add : Time -> Time -> Time.
Variable BaseEventLoop_call_at :
  option Time -> Callback -> Loop -> Result Timer * Loop.

(** [call_at]. *)
Definition call_at (when_ : option Time) (cb : Callback) : M Timer :=
  l <- get ;;
  when (__blocked_in_select l) _write_to_self ;;
  inherited (BaseEventLoop_call_at when_ cb).

(** [BaseEventLoop.call_later]: the check of [delay], then
    [self.call_at(self.time() + delay, ...)], where [self.call_at] is the
    [call_at] of the bridge. *)
Definition BaseEventLoop_call_later (delay : option Time) (cb : Callback)
  : M Timer :=
  match delay with
  | None => raise TypeError
  | Some d =>
      l <- get ;;
      call_at (Some (add (time l) d)) cb
  end.

(** [call_later]. *)
Definition call_later (delay : option Time) (cb : Callback) : M Timer :=
  l <- get ;;
  when (__blocked_in_select l) _write_to_self ;;
  BaseEventLoop_call_later delay cb.

End Timers.

(** The emissions of the loop's notifier that Qt holds queued. *)
Definition queued (l : Loop) : nat :=
  match __notifier l with
  | Some n => Notifier.posted n
  | None => 0%nat
  end.

(** Qt takes one queued emission of the loop's notifier and delivers it
    to [_on_notified], whose callback, given to [create_notifier] by
    [__enter__], is [__process_asyncio_events].  With nothing queued
    nothing is delivered. *)
Definition deliver_notification `{Collaborators} (l : Loop)
  : Result unit * Loop * list Event :=
  match __notifier l with
  | Some n =>
      match Notifier.posted n with
      | S k =>
          let taken :=
            {| Notifier._callback := Notifier._callback n;
               Notifier.connected := Notifier.connected n;
               Notifier.posted := k |} in
          let '(r, (l', t), _) :=
            Notifier._on_notified
              (fun (_ : BoundMethod) (w : Loop * list Event) =>
                 let '(r, l1, t1) := __process_asyncio_events (fst w) in
                 (r, (l1, snd w ++ t1)))
              taken (set_notifier (Some taken) l, []) in
          (r, l', t)
      | O => (Return tt, l, [])
      end
  | None => (Return tt, l, [])
  end.

(** [k] deliveries in a row; an exception that escapes the slot does not
    stop Qt from delivering the next emission. *)
Fixpoint deliver_notifications `{Collaborators} (k : nat) (l : Loop) : Loop :=
  match k with
  | O => l
  | S k' => deliver_notifications k' (snd (fst (deliver_notification l)))
  end.

(** Modelled from the spec: the end of the background wait that a
    yielding [select] handed to the worker; the sources hold only the
    protocol of the selectable, not the selector that implements it.
    The docstring of the protocol has the transition
    [BUSY --- (IO ready or timeout reached) --> IDLE] and spec 4.1 has
    the worker, on completion, put the selectable back in [IDLE] and fire
    the installed notifier exactly once; spec 4.2 and 5 have [stop]
    force-wake a yielded selector, the wake-up being equivalent to a
    notify.  So a byte sent to the self-pipe since the wait began ends
    the wait, as does other I/O becoming ready or the timeout being
    reached; until then the worker waits and nothing changes.
    [sent_before] is the number of bytes sent when the wait began. *)
Definition worker_wait (sent_before : nat) (io_ready timed_out : bool)
  (l : Loop) : Loop :=
  match Selectable.state (_selector l) with
  | Selectable.BUSY =>
      if Nat.ltb sent_before (writes_to_self l) || io_ready || timed_out then
        let idle :=
          set_selector
            {| Selectable.state := Selectable.IDLE;
               Selectable.notifier := Selectable.notifier (_selector l);
               Selectable.worker := None |} l in
        match Selectable.notifier (_selector l), __notifier l with
        | Some _, Some n => set_notifier (Some (Notifier.notify n)) idle
        | _, _ => idle
        end
      else l
  | _ => l
  end.

(** The calls a tick can make. *)
Definition tick_trace (t : list Event) : Prop :=
  t = []
  \/ t = [Ev_run_once]
  \/ t = [Ev_run_once; Ev_notify]
  \/ exists code : Z, t = [Ev_run_once; Ev_qt_exit code].

End Scheduling.

(** ** The handler of [asyncsignal], with the future's loop *)

Module Awaited.
Section Defs.

(** [Arg]: a signal argument; [Cb]: a done callback of the future, such
    as the wake-up of the task that awaits it; [W]: the state of the
    future's loop, and [call_soon cb w] the outcome of
    [self._loop.call_soon(callback, self, context=ctx)] on it. *)
Context {Arg Cb W : Type}.
Variable has_QVariant : bool.
Variable QVariant_value : Arg -> Arg.
Variable call_soon : Cb -> W -> Result unit * W.

(** The future with its list of done callbacks, and [slot] as in
    [Signals.Frame]. *)
Record Frame : Type := mkFrame {
  fut : Signals.Future (list Arg);
  _callbacks : list Cb;
  slot : bool
}.

(** The loop of [Future.__schedule_callbacks] over the callbacks it took
    from the future. *)
Fixpoint schedule_callbacks (callbacks : list Cb) (w : W) : Result unit * W :=
  match callbacks with
  | [] => (Return tt, w)
  | cb :: rest =>
      match call_soon cb w with
      | (Return _, w') => schedule_callbacks rest w'
      | (Raise e, w') => (Raise e, w')
      end
  end.

(** [Future.set_result]: the state check, the result stored, then the
    done callbacks taken from the future and scheduled. *)
Definition set_result (fr : Frame) (v : list Arg) (w : W)
  : Result unit * Frame * W :=
  if Signals.done (fut fr) then (Raise InvalidStateError, fr, w)
  else
    let '(r, w') := schedule_callbacks (_callbacks fr) w in
    (r, {| fut := Signals.Finished v; _callbacks := []; slot := slot fr |}, w').

(** [handler] of [asyncsignal]. *)
Definition handler (args : list Arg) (fr : Frame) (w : W)
  : Result unit * Frame * W :=
  if negb (Signals.done (fut fr)) then
    match set_result fr
            (Signals.copy_signal_arguments has_QVariant QVariant_value args)
            w with
    | (Return _, fr', w') =>
        (Return tt,
         {| fut := fut fr'; _callbacks := _callbacks fr'; slot := false |}, w')
    | (Raise e, fr', w') => (Raise e, fr', w')
    end
  else
    (Return tt,
     {| fut := fut fr; _callbacks := _callbacks fr; slot := false |}, w).

End Defs.
End Awaited.

(** ** [bouncingwidget.BouncingWidget] *)

Module BouncingWidget.

Local Open Scope Z_scope.

(** The attributes set by [__init__]. *)
Record t : Type := mk {
  _x : Z;
  _y : Z;
  _d : Z;
  _vx : Z;
  _vy : Z
}.

(** The calls [paintEvent] makes on its [QPainter]. *)
Inductive Draw : Type :=
| setRenderHint_Antialiasing
| drawRect (x y w h : Z)
| setBrush_black
| drawEllipse (x y w h : Z).

(** [__init__]: the attributes, the minimum size given to
    [setMinimumSize] and the interval given to [startTimer]. *)
Definition __init__ : t * (Z * Z) * Z :=
  let self := {| _x := 0; _y := 0; _d := 20; _vx := 10; _vy := 5 |} in
  (self, (_d self * 2, _d self * 2), 50).

(** [timerEvent], with [w] and [h] the values of [self.width()] and
    [self.height()]; it ends with [self.update()]. *)
Definition timerEvent (w h : Z) (self : t) : t :=
  let x := _x self + _vx self in
  let '(x, vx) :=
    if x <? 0 then (- x, - _vx self)
    else if x + _d self >? w then (x - (x + _d self - w), - _vx self)
    else (x, _vx self) in
  let y := _y self + _vy self in
  let '(y, vy) :=
    if y <? 0 then (- y, - _vy self)
    else if y + _d self >? h then (y - (y + _d self - h), - _vy self)
    else (y, _vy self) in
  {| _x := x; _y := y; _d := _d self; _vx := vx; _vy := vy |}.

(** [paintEvent]. *)
Definition paintEvent (w h : Z) (self : t) : list Draw :=
  [setRenderHint_Antialiasing;
   drawRect 0 0 w h;
   setBrush_black;
   drawEllipse (_x self) (_y self) (_d self) (_d self)].

(** The timer events of a run, each with the size the widget has then. *)
Fixpoint timerEvents (sizes : list (Z * Z)) (self : t) : t :=
  match sizes with
  | [] => self
  | (w, h) :: rest => timerEvents rest (timerEvent w h self)
  end.

(** The ball lies in a widget of size [w] by [h]. *)
Definition inside (w h : Z) (self : t) : Prop :=
  0 <= _x self /\ _x self + _d self <= w
  /\ 0 <= _y self /\ _y self + _d self <= h.

(** What every state reached from [__init__] satisfies, while the
    widget has at least its minimum size. *)
Definition launched (s : t) : Prop :=
  0 <= _x s /\ 0 <= _y s /\ _d s = 20
  /\ Z.abs (_vx s) = 10 /\ Z.abs (_vy s) = 5.

End BouncingWidget.

(** ** More concrete loops *)

Module Cases.
Import Bridge.

(** A closed loop, left blocked in select and in eager mode. *)
Definition closed_loop : Loop :=
  {| __qt_event_loop := None; __notifier := None;
     __blocked_in_select := true; __run_once_error := None;
     __old_agen_hooks := None; __call_soon_eagerly := true;
     _closed := true; _stopping := false; _thread_id := None;
     _ready := []; _selector := _selector Sample.new_loop;
     next_handle := 0; cancelled := []; writes_to_self := 0;
     running_loop := None; current_task := None;
     asyncgen_hooks := SystemHooks 0; qapp := true; ident := 1 |}.

(** The same loop in a process without a [QCoreApplication]. *)
Definition closed_loop_without_application : Loop :=
  {| __qt_event_loop := None; __notifier := None;
     __blocked_in_select := true; __run_once_error := None;
     __old_agen_hooks := None; __call_soon_eagerly := true;
     _closed := true; _stopping := false; _thread_id := None;
     _ready := []; _selector := _selector Sample.new_loop;
     next_handle := 0; cancelled := []; writes_to_self := 0;
     running_loop := None; current_task := None;
     asyncgen_hooks := SystemHooks 0; qapp := false; ident := 1 |}.

(** The nested loop after its first tick yielded: the notification of
    [__enter__] has been delivered, the flag is set and the selectable is
    busy with a wait that has no timeout. *)
Definition yielded_loop : Loop :=
  set_selector
    {| Selectable.state := Selectable.BUSY;
       Selectable.notifier := Some loop_notifier;
       Selectable.worker := Some None |}
    (set_notifier
       (Some {| Notifier._callback := Some process_asyncio_events_method;
                Notifier.connected := true; Notifier.posted := 0 |})
       (set_blocked_in_select true Sample.nested_loop)).

(** [call_soon] of the bridge as the [call_soon] of a future's loop. *)
Definition loop_call_soon (E : Collaborators) (cb : Callback) (l : Loop)
  : Result unit * Loop :=
  let '(r, l', _) := @call_soon E cb l in
  (match r with Return _ => Return tt | Raise e => Raise e end, l').

(** A handle whose run leaves its own task current. *)
Definition entering : Collaborators :=
  Sample.collaborators (fun l => (Return tt, l))
    (fun h l =>
       match callback h with
       | Step t => (Return tt, set_current_task (Some t) l)
       | Plain _ => (Return tt, l)
       end)
    Sample.exec_nothing.

End Cases.
(** * Properties *)

Import Bridge.
Local Open Scope py_scope.

(** ** The notifier object *)

Section NotifierFacts.

Context {C W : Type}.
Variable call : C -> W -> Result unit * W.

Lemma close_clears_callback (n : Notifier.t C) :
  Notifier._callback (Notifier.close n) = None.
Proof.
  unfold Notifier.close.
  destruct (Notifier._callback n) eqn:E; simpl; [reflexivity | exact E].
Qed.

Lemma close_disconnects (n : Notifier.t C) :
  Notifier._callback n = None -> Notifier.connected n = false ->
  Notifier.connected (Notifier.close n) = false.
Proof.
  intros Hc Hn. unfold Notifier.close. rewrite Hc. exact Hn.
Qed.

Lemma on_notified_without_callback (n : Notifier.t C) (w : W) :
  Notifier._callback n = None ->
  Notifier._on_notified call n w = (Return tt, w, []).
Proof.
  intros Hc. unfold Notifier._on_notified. rewrite Hc. reflexivity.
Qed.

Lemma deliver_without_callback (k : nat) (n : Notifier.t C) (w : W) :
  Notifier._callback n = None ->
  Notifier.deliver call k n w = (Return tt, w, []).
Proof.
  intros Hc. induction k as [|k IH]; simpl.
  - reflexivity.
  - rewrite (on_notified_without_callback n w Hc), IH. reflexivity.
Qed.

End NotifierFacts.

(** C9.  Once [close] has been called on a notifier, a notification that
    reaches [_on_notified] invokes no callback and raises nothing, however
    many queued notifications are delivered late; and [close] on a closed
    notifier changes nothing. *)
Theorem closed_notifier_drops_late_notifications :
  forall (C W : Type) (call : C -> W -> Result unit * W)
         (n : Notifier.t C) (w : W),
    Notifier._on_notified call (Notifier.close n) w = (Return tt, w, [])
    /\ (forall k, Notifier.deliver call k (Notifier.close n) w
                  = (Return tt, w, []))
    /\ Notifier.close (Notifier.close n) = Notifier.close n.
Proof.
  intros C W call n w.
  pose proof (close_clears_callback n) as Hc.
  split; [| split].
  - apply on_notified_without_callback. exact Hc.
  - intros k. apply deliver_without_callback. exact Hc.
  - unfold Notifier.close at 1. rewrite Hc. reflexivity.
Qed.

(** ** The selectable *)

Section SelectableFacts.

Context {K N : Type}.

Lemma select_zero_on_idle (q : Q) (ready later : list K)
      (s : Selectable.t N) :
  Selectable.state s = Selectable.IDLE -> q == 0 ->
  Selectable.select (Some q) ready later s
  = (Return ready, s, Selectable.Synchronous).
Proof.
  intros Hs Hq. unfold Selectable.select. rewrite Hs.
  apply Qeq_bool_iff in Hq. simpl. rewrite Hq. reflexivity.
Qed.

Lemma selects_zero_on_idle (calls : list (option Q * list K * list K))
      (s : Selectable.t N) :
  Selectable.state s = Selectable.IDLE -> Selectable.all_zero calls ->
  Selectable.selects calls s = map (fun _ => s) calls.
Proof.
  intros Hs Hz. induction Hz as [|[[timeout ready] later] rest Hc _ IH].
  - reflexivity.
  - destruct Hc as [q [Ht Hq]]. simpl in Ht. subst timeout. simpl.
    rewrite (select_zero_on_idle ready later s Hs Hq), IH. reflexivity.
Qed.

End SelectableFacts.

(** C8.  On an [IDLE] selectable, [select] with a timeout equal to zero
    answers from the synchronous readiness check (with the keys it found,
    possibly none), hands nothing to a worker, does not wait, and leaves
    the selectable as it was, in [IDLE]; the same holds for every
    sequence of such calls. *)
Theorem select_timeout_zero_stays_idle :
  forall (K N : Type) (s : Selectable.t N) (q : Q) (ready later : list K)
         (calls : list (option Q * list K * list K)),
    Selectable.state s = Selectable.IDLE ->
    q == 0 ->
    Selectable.all_zero calls ->
    Selectable.select (Some q) ready later s
    = (Return ready, s, Selectable.Synchronous)
    /\ Selectable.worker (snd (fst (Selectable.select (Some q) ready later s)))
       = Selectable.worker s
    /\ Forall (fun s' => Selectable.state s' = Selectable.IDLE)
              (Selectable.selects calls s).
Proof.
  intros K N s q ready later calls Hs Hq Hz.
  rewrite (select_zero_on_idle ready later s Hs Hq).
  split; [reflexivity | split; [reflexivity |]].
  rewrite (selects_zero_on_idle s Hs Hz).
  apply Forall_forall. intros s' Hin. apply in_map_iff in Hin.
  destruct Hin as [c [Heq _]]. subst s'. exact Hs.
Qed.

Lemma select_timeout_zero_stays_idle_witness :
  Selectable.select (Some 0) ([] : list nat) [3%nat] Sample.idle_selectable
  = (Return [], Sample.idle_selectable, Selectable.Synchronous)
  /\ Selectable.worker
       (snd (fst (Selectable.select (Some 0) ([] : list nat) [3%nat]
                    Sample.idle_selectable)))
     = Selectable.worker Sample.idle_selectable
  /\ Forall (fun s' => Selectable.state s' = Selectable.IDLE)
            (Selectable.selects
               [(Some 0, [], [3%nat]); (Some (0 # 5), [4%nat], [])]
               Sample.idle_selectable).
Proof.
  apply (@select_timeout_zero_stays_idle nat nat Sample.idle_selectable 0 [] [3%nat]
           [(Some 0, [], [3%nat]); (Some (0 # 5), [4%nat], [])]).
  - reflexivity.
  - reflexivity.
  - repeat constructor.
    + exists 0. split; reflexivity.
    + exists (0 # 5). split; reflexivity.
Defined.

(** ** The signal adapter *)

Section SignalFacts.

Context {Arg : Type}.
Variable has_QVariant : bool.
Variable QVariant_value : Arg -> Arg.

Local Abbreviation copy := (Signals.copy_signal_arguments has_QVariant QVariant_value).
Local Abbreviation handler := (Signals.handler has_QVariant QVariant_value).
Local Abbreviation invocations := (Signals.invocations has_QVariant QVariant_value).






End SignalFacts.


(** Two emissions, [(7,)] then [(8,)], under a binding that copies. *)
Example asyncsignal_two_emissions :
  Signals.invocations true (fun x : nat => x) [[7%nat]; [8%nat]]
    Signals.asyncsignal_start
  = (Return tt,
     {| Signals.fut := Signals.Finished [7%nat]; Signals.slot := false |},
     [[7%nat]]).
Proof. reflexivity. Qed.

(** ** The tick handler *)

Section TickFacts.

Context `{Collaborators}.

(** The handler on a loop that passes its two assertions, in terms of
    the outcome of the batch. *)
Lemma tick_unfold (l : Loop) :
  is_closed l = false -> is_running l = true ->
  __process_asyncio_events l
  = match _run_once (set_blocked_in_select false l) with
    | (Return _, l1) =>
        if _stopping l1 then
          match __qt_event_loop l1 with
          | Some _ =>
              (Return tt,
               set_qt_event_loop (Some {| exit_code := Some 0%Z |}) l1,
               [Ev_run_once; Ev_qt_exit 0])
          | None =>
              match __notifier l1 with
              | Some n =>
                  (Return tt, set_notifier (Some (Notifier.notify n)) l1,
                   [Ev_run_once; Ev_notify])
              | None => (Raise AttributeError, l1, [Ev_run_once])
              end
          end
        else
          match __notifier l1 with
          | Some n =>
              (Return tt, set_notifier (Some (Notifier.notify n)) l1,
               [Ev_run_once; Ev_notify])
          | None => (Raise AttributeError, l1, [Ev_run_once])
          end
    | (Raise exc, l1) =>
        if is_AsyncSlotYield exc then
          (Return tt, set_blocked_in_select true l1, [Ev_run_once])
        else
          match __qt_event_loop l1 with
          | Some _ =>
              (Return tt,
               set_qt_event_loop (Some {| exit_code := Some 1%Z |})
                 (set_run_once_error (Some exc) l1),
               [Ev_run_once; Ev_qt_exit 1])
          | None =>
              (Raise exc, set_run_once_error (Some exc) l1, [Ev_run_once])
          end
    end.
Proof.
  intros Hc Hr.
  unfold __process_asyncio_events, bind, assert, modify, try_except_else,
    extern.
  rewrite Hc. simpl. rewrite Hr. simpl.
  destruct (_run_once (set_blocked_in_select false l)) as [[u|exc] l1].
  - unfold get, notifier_notify, QEventLoop_exit, bind, modify, emit, raise, get.
    destruct (_stopping l1); destruct (__qt_event_loop l1);
      destruct (__notifier l1); reflexivity.
  - destruct (is_AsyncSlotYield exc); [reflexivity |].
    unfold get, QEventLoop_exit, bind, modify, emit, raise, get. simpl.
    destruct (__qt_event_loop l1); reflexivity.
Qed.


(** A failed assertion leaves the loop as it was. *)
Lemma tick_on_closed_loop (l : Loop) :
  is_closed l = true ->
  __process_asyncio_events l = (Raise (AssertionError 0), l, []).
Proof.
  intros Hc.
  unfold __process_asyncio_events, bind, assert. rewrite Hc. reflexivity.
Qed.

Lemma tick_on_stopped_loop (l : Loop) :
  is_closed l = false -> is_running l = false ->
  __process_asyncio_events l = (Raise (AssertionError 1), l, []).
Proof.
  intros Hc Hr.
  unfold __process_asyncio_events, bind, assert. rewrite Hc. simpl.
  rewrite Hr. reflexivity.
Qed.

End TickFacts.

(** [__enter__] on a loop that is neither closed nor running, with no
    other loop running, leaves a loop on which the handler's assertions
    hold, with a connected notifier that has the initial notification
    queued. *)
Lemma enter_starts_loop (l : Loop) :
  _closed l = false -> _thread_id l = None -> running_loop l = None ->
  exists l1 : Loop,
    __enter__ l = (Return tt, l1, [Ev_enter; Ev_notify; Ev_set_notifier true])
    /\ is_closed l1 = false
    /\ is_running l1 = true
    /\ __notifier l1
       = Some {| Notifier._callback := Some process_asyncio_events_method;
                 Notifier.connected := true; Notifier.posted := 1 |}
    /\ __old_agen_hooks l1 = Some (asyncgen_hooks l)
    /\ running_loop l1 = Some Self.
Proof.
  intros Hc Ht Hr.
  unfold __enter__, _check_closed, _check_running, is_running,
    notifier_notify, create_notifier, bind, emit, get, modify, raise, ret.
  simpl. rewrite Hc. simpl. rewrite Ht, Hr. simpl.
  eexists. split; [reflexivity |]. simpl.
  repeat split; assumption.
Qed.

(** C1.  On a running loop the handler runs the batch once, on the loop
    with [__blocked_in_select] cleared.  When the batch raises
    [AsyncSlotYield], the handler sets [__blocked_in_select], returns, and
    has called nothing but the batch: no notification is enqueued.  When
    the batch completes with no stop requested, the handler calls [notify]
    on the installed notifier once, after the batch, which queues one more
    emission, and returns. *)
Theorem tick_runs_one_batch_then_yields_or_requeues :
  forall (E : Collaborators) (l l1 : Loop) (r : Result unit),
    is_closed l = false ->
    is_running l = true ->
    _run_once (set_blocked_in_select false l) = (r, l1) ->
    __blocked_in_select (set_blocked_in_select false l) = false
    /\ (r = Raise AsyncSlotYield ->
        __process_asyncio_events l
        = (Return tt, set_blocked_in_select true l1, [Ev_run_once])
        /\ __blocked_in_select (set_blocked_in_select true l1) = true
        /\ __notifier (set_blocked_in_select true l1) = __notifier l1)
    /\ (r = Return tt ->
        _stopping l1 = false ->
        forall n : Notifier.t BoundMethod,
          __notifier l1 = Some n ->
          __process_asyncio_events l
          = (Return tt, set_notifier (Some (Notifier.notify n)) l1,
             [Ev_run_once; Ev_notify])
          /\ (Notifier.connected n = true ->
              Notifier.posted (Notifier.notify n) = S (Notifier.posted n))).
Proof.
  intros E l l1 r Hc Hr Hb.
  pose proof (tick_unfold l Hc Hr) as Ht. rewrite Hb in Ht.
  split; [reflexivity | split].
  - intros ->. simpl in Ht. repeat split. exact Ht.
  - intros -> Hs n Hn. rewrite Hs, Hn in Ht. split; [exact Ht |].
    intros Hcon. unfold Notifier.notify. rewrite Hcon. reflexivity.
Qed.

Lemma tick_runs_one_batch_then_yields_or_requeues_witness :
  (@__process_asyncio_events Sample.yielding Sample.attached_loop
   = (Return tt, set_blocked_in_select true Sample.attached_loop,
      [Ev_run_once]))
  /\ (exists n,
         __notifier Sample.attached_loop = Some n
         /\ Notifier.connected n = true
         /\ @__process_asyncio_events Sample.completing Sample.attached_loop
            = (Return tt,
               set_notifier (Some (Notifier.notify n)) Sample.attached_loop,
               [Ev_run_once; Ev_notify])).
Proof.
  split.
  - apply (tick_runs_one_batch_then_yields_or_requeues
             Sample.yielding Sample.attached_loop
             (l1 := Sample.attached_loop) (r := Raise AsyncSlotYield));
      reflexivity.
  - exists {| Notifier._callback := Some process_asyncio_events_method;
              Notifier.connected := true; Notifier.posted := 1 |}.
    split; [reflexivity | split; [reflexivity |]].
    apply (tick_runs_one_batch_then_yields_or_requeues
             Sample.completing Sample.attached_loop
             (l1 := Sample.attached_loop) (r := Return tt));
      reflexivity.
Defined.

(** C2.  When the batch raises an exception other than [AsyncSlotYield],
    the handler stores it in [__run_once_error]; then, with a
    [QEventLoop] held (nested mode), it calls [exit(1)] on it, a non-zero
    code, and returns; with none held (attached mode) it raises the same
    exception to its caller.  No notification is enqueued either way. *)
Theorem tick_records_fatal_error_then_exits_or_reraises :
  forall (E : Collaborators) (l l1 : Loop) (exc : exn),
    is_closed l = false ->
    is_running l = true ->
    _run_once (set_blocked_in_select false l) = (Raise exc, l1) ->
    exc <> AsyncSlotYield ->
    (forall q : QEventLoop,
        __qt_event_loop l1 = Some q ->
        __process_asyncio_events l
        = (Return tt,
           set_qt_event_loop (Some {| exit_code := Some 1%Z |})
             (set_run_once_error (Some exc) l1),
           [Ev_run_once; Ev_qt_exit 1])
        /\ 1%Z <> 0%Z)
    /\ (__qt_event_loop l1 = None ->
        __process_asyncio_events l
        = (Raise exc, set_run_once_error (Some exc) l1, [Ev_run_once]))
    /\ __run_once_error (snd (fst (__process_asyncio_events l))) = Some exc.
Proof.
  intros E l l1 exc Hc Hr Hb Hne.
  pose proof (tick_unfold l Hc Hr) as Ht. rewrite Hb in Ht.
  assert (Hy : is_AsyncSlotYield exc = false)
    by (destruct exc; try reflexivity; contradiction Hne; reflexivity).
  rewrite Hy in Ht.
  split; [| split].
  - intros q Hq. rewrite Hq in Ht. split; [exact Ht | discriminate].
  - intros Hq. rewrite Hq in Ht. exact Ht.
  - rewrite Ht. destruct (__qt_event_loop l1); reflexivity.
Qed.

Lemma tick_records_fatal_error_then_exits_or_reraises_witness :
  (@__process_asyncio_events Sample.failing Sample.nested_loop
   = (Return tt,
      set_qt_event_loop (Some {| exit_code := Some 1%Z |})
        (set_run_once_error (Some (UserError 5)) Sample.nested_loop),
      [Ev_run_once; Ev_qt_exit 1]))
  /\ (@__process_asyncio_events Sample.failing Sample.attached_loop
      = (Raise (UserError 5),
         set_run_once_error (Some (UserError 5)) Sample.attached_loop,
         [Ev_run_once])).
Proof.
  split.
  - refine (proj1 (proj1 (tick_records_fatal_error_then_exits_or_reraises
                     Sample.failing Sample.nested_loop
                     (l1 := Sample.nested_loop) (exc := UserError 5)
                     eq_refl eq_refl eq_refl _)
                   {| exit_code := None |} eq_refl)).
    discriminate.
  - refine (proj1 (proj2 (tick_records_fatal_error_then_exits_or_reraises
                     Sample.failing Sample.attached_loop
                     (l1 := Sample.attached_loop) (exc := UserError 5)
                     eq_refl eq_refl eq_refl _))
                  eq_refl).
    discriminate.
Defined.



(** ** [run_forever] *)

Section RunForeverFacts.

(** [__exit__] on a loop that holds saved asyncgen hooks returns, and
    touches neither the stored error nor the nested [QEventLoop]. *)
Lemma exit_returns (l : Loop) (hooks : Hooks) :
  __old_agen_hooks l = Some hooks ->
  exists (l' : Loop) (t : list Event),
    __exit__ l = (Return tt, l', Ev_exit :: t)
    /\ __run_once_error l' = __run_once_error l
    /\ __qt_event_loop l' = __qt_event_loop l
    /\ __notifier l' = None
    /\ is_running l' = false
    /\ running_loop l' = None
    /\ _stopping l' = false
    /\ asyncgen_hooks l' = hooks.
Proof.
  intros Hh.
  unfold __exit__, bind, emit, get, modify, raise, ret. simpl.
  rewrite Hh.
  destruct (__notifier l) as [n|] eqn:Hn; simpl;
    eexists; eexists; (split; [reflexivity |]); repeat split.
  simpl. exact Hn.
Qed.

Context `{Collaborators}.

Lemma run_forever_unfold (l l1 l2 : Loop) (t1 : list Event) (code : Z) :
  qapp l = true ->
  __enter__ l = (Return tt, l1, t1) ->
  QEventLoop_exec (set_qt_event_loop (Some {| exit_code := None |}) l1)
  = (code, l2) ->
  run_forever l
  = (let '(r, l3, t3) :=
       __exit__ (set_qt_event_loop None (set_run_once_error None l2)) in
     (match r with
      | Return _ => outcome_of code (__run_once_error l2)
      | Raise e => Raise e
      end,
      l3,
      t1 ++ (Ev_qt_exec
               :: (if Z.eqb code 0 then [] else [Ev_print_traceback]))
         ++ t3)).
Proof.
  intros Hq He Hx.
  unfold run_forever, with_self, bind at 1, get. rewrite Hq. simpl.
  unfold bind at 1. rewrite He.
  unfold try_finally at 1.
  unfold try_finally at 1, try_except_else, bind, modify, extern, get,
    raise, ret, emit.
  simpl. rewrite Hx. simpl. unfold outcome_of.
  destruct (Z.eqb code 0); simpl.
  - destruct (__exit__ (set_qt_event_loop None (set_run_once_error None l2)))
      as [[[u|e] l3] t3]; simpl; rewrite ?app_nil_r; reflexivity.
  - destruct (__run_once_error l2); simpl;
      destruct (__exit__ (set_qt_event_loop None (set_run_once_error None l2)))
        as [[[u|e'] l3] t3]; simpl; rewrite ?app_nil_r; reflexivity.
Qed.

End RunForeverFacts.

(** C4.  When a [QCoreApplication] exists and [__enter__] succeeds,
    [run_forever] returns if the nested [QEventLoop] exits with code zero,
    raises the stored error if the code is not zero and an error is
    stored, and raises the [RuntimeError] naming the exit code if the code
    is not zero and no error is stored.  In each case [__exit__] has run,
    after the foreign loop, and the loop is left with no stored error, no
    [QEventLoop], no notifier, and not running.  ([__exit__] completes on
    a loop that still holds the hooks saved by [__enter__].) *)
Theorem run_forever_returns_or_reraises_and_cleans_up :
  forall (E : Collaborators) (l l1 l2 : Loop) (t1 : list Event) (code : Z)
         (hooks : Hooks),
    qapp l = true ->
    __enter__ l = (Return tt, l1, t1) ->
    QEventLoop_exec (set_qt_event_loop (Some {| exit_code := None |}) l1)
    = (code, l2) ->
    __old_agen_hooks l2 = Some hooks ->
    exists (r : Result unit) (l3 : Loop) (t3 : list Event),
      run_forever l
      = (r, l3,
         t1 ++ (Ev_qt_exec
                  :: (if Z.eqb code 0 then [] else [Ev_print_traceback]))
            ++ Ev_exit :: t3)
      /\ (code = 0%Z -> r = Return tt)
      /\ (code <> 0%Z ->
          forall e, __run_once_error l2 = Some e -> r = Raise e)
      /\ (code <> 0%Z ->
          __run_once_error l2 = None ->
          r = Raise (RuntimeError (QtLoopExited code)))
      /\ __run_once_error l3 = None
      /\ __qt_event_loop l3 = None
      /\ __notifier l3 = None
      /\ is_running l3 = false.
Proof.
  intros E l l1 l2 t1 code hooks Hq He Hx Hh.
  pose proof (run_forever_unfold l Hq He Hx) as Hrun.
  destruct (exit_returns
              (set_qt_event_loop None (set_run_once_error None l2))
              (hooks := hooks) Hh)
    as [l3 [t3 [Hexit [Herr [Hqt [Hn [Hr _]]]]]]].
  rewrite Hexit in Hrun.
  exists (outcome_of code (__run_once_error l2)), l3, t3.
  split; [exact Hrun |].
  unfold outcome_of.
  split; [| split; [| split; [| split; [| split; [| split]]]]].
  - intros ->. reflexivity.
  - intros Hc e Hs. apply Z.eqb_neq in Hc. rewrite Hc, Hs. reflexivity.
  - intros Hc Hs. apply Z.eqb_neq in Hc. rewrite Hc, Hs. reflexivity.
  - rewrite Herr. reflexivity.
  - rewrite Hqt. reflexivity.
  - exact Hn.
  - exact Hr.
Qed.

Lemma run_forever_returns_or_reraises_and_cleans_up_witness :
  (exists l3 t,
      @run_forever (Sample.nested Sample.stopping 0) Sample.new_loop
      = (Return tt, l3, t)
      /\ __run_once_error l3 = None /\ is_running l3 = false)
  /\ (exists l3 t,
         @run_forever (Sample.nested Sample.failing 0) Sample.new_loop
         = (Raise (UserError 5), l3, t)
         /\ __run_once_error l3 = None /\ is_running l3 = false)
  /\ (exists l3 t,
         @run_forever (Sample.nested Sample.yielding 3) Sample.new_loop
         = (Raise (RuntimeError (QtLoopExited 3)), l3, t)
         /\ __run_once_error l3 = None /\ is_running l3 = false).
Proof.
  split; [| split].
  - destruct (run_forever_returns_or_reraises_and_cleans_up
                (Sample.nested Sample.stopping 0) Sample.new_loop
                (l1 := Sample.attached_loop)
                (l2 := snd (@QEventLoop_exec (Sample.nested Sample.stopping 0)
                              Sample.nested_loop))
                (t1 := [Ev_enter; Ev_notify; Ev_set_notifier true])
                (code := 0%Z) (hooks := SystemHooks 0)
                eq_refl eq_refl eq_refl eq_refl)
      as [r [l3 [t3 [Hrun [Hzero [_ [_ [Herr [_ [_ Hnot]]]]]]]]]].
    exists l3. eexists. rewrite Hrun, (Hzero eq_refl).
    split; [reflexivity | split; assumption].
  - destruct (run_forever_returns_or_reraises_and_cleans_up
                (Sample.nested Sample.failing 0) Sample.new_loop
                (l1 := Sample.attached_loop)
                (l2 := snd (@QEventLoop_exec (Sample.nested Sample.failing 0)
                              Sample.nested_loop))
                (t1 := [Ev_enter; Ev_notify; Ev_set_notifier true])
                (code := 1%Z) (hooks := SystemHooks 0)
                eq_refl eq_refl eq_refl eq_refl)
      as [r [l3 [t3 [Hrun [_ [Hstored [_ [Herr [_ [_ Hnot]]]]]]]]]].
    exists l3. eexists.
    rewrite Hrun, (Hstored ltac:(discriminate) (UserError 5) eq_refl).
    split; [reflexivity | split; assumption].
  - destruct (run_forever_returns_or_reraises_and_cleans_up
                (Sample.nested Sample.yielding 3) Sample.new_loop
                (l1 := Sample.attached_loop)
                (l2 := snd (@QEventLoop_exec (Sample.nested Sample.yielding 3)
                              Sample.nested_loop))
                (t1 := [Ev_enter; Ev_notify; Ev_set_notifier true])
                (code := 3%Z) (hooks := SystemHooks 0)
                eq_refl eq_refl eq_refl eq_refl)
      as [r [l3 [t3 [Hrun [_ [_ [Hnone [Herr [_ [_ Hnot]]]]]]]]]].
    exists l3. eexists.
    rewrite Hrun, (Hnone ltac:(discriminate) eq_refl).
    split; [reflexivity | split; assumption].
Defined.

(** ** [stop] and [call_soon] *)

Section CallSoonFacts.

Context `{Collaborators}.

Lemma stop_unfold (l : Loop) :
  _closed l = false ->
  stop l
  = (Return tt, set_stopping true (woken l), wake_events l ++ [Ev_super_stop]).
Proof.
  intros Hc.
  unfold stop, woken, wake_events, when, _write_to_self, BaseEventLoop_stop,
    bind, get, modify, emit, ret.
  destruct (__blocked_in_select l); simpl; rewrite ?Hc; reflexivity.
Qed.

(** On a closed loop the call of [_write_to_self] sends nothing. *)
Lemma stop_closed_unfold (l : Loop) :
  _closed l = true ->
  stop l = (Return tt, set_stopping true l, wake_events l ++ [Ev_super_stop]).
Proof.
  intros Hc.
  unfold stop, wake_events, when, _write_to_self, BaseEventLoop_stop,
    bind, get, modify, emit, ret.
  destruct (__blocked_in_select l); simpl; rewrite ?Hc; reflexivity.
Qed.

Lemma is_cancelled_cancel (h : Handle) (l : Loop) :
  is_cancelled h (cancel h l) = true.
Proof.
  unfold cancel. destruct (is_cancelled h l) eqn:Hc; [exact Hc |].
  unfold is_cancelled. simpl. rewrite Nat.eqb_refl. reflexivity.
Qed.

Lemma current_task_cancel (h : Handle) (l : Loop) :
  current_task (cancel h l) = current_task l.
Proof.
  unfold cancel. destruct (is_cancelled h l); reflexivity.
Qed.

Lemma ready_step_cancelled (h : Handle) (l : Loop) :
  is_cancelled h l = true -> ready_step h l = (Return tt, l, []).
Proof.
  intros Hc. unfold ready_step, bind, get, ret. simpl. rewrite Hc. reflexivity.
Qed.

Lemma suspended_facts (cb : Callback) (l : Loop) :
  __call_soon_eagerly (suspended cb l) = false
  /\ current_task (suspended cb l) = None
  /\ In (new_handle cb l) (_ready (suspended cb l))
  /\ callback (new_handle cb l) = cb.
Proof.
  unfold suspended, scheduled, woken.
  destruct (current_task l) eqn:Ht; destruct (__blocked_in_select l); simpl;
    repeat split; try assumption; apply in_or_app; right; left; reflexivity.
Qed.

(** An eager [call_soon], in terms of the outcome of the handle's run. *)
Lemma call_soon_eager_unfold (cb : Callback) (l : Loop) :
  _closed l = false ->
  __call_soon_eagerly l = true ->
  call_soon cb l
  = (let h := new_handle cb l in
     let '(r, l4) := Handle__run h (suspended cb l) in
     let t := wake_events l ++ [Ev_super_call_soon h] ++ leave_events l
              ++ [Ev_handle_run h; Ev_handle_cancel h] ++ enter_events l in
     match current_task l with
     | None => (handle_or_raise h r, cancel h l4, t)
     | Some task =>
         match current_task l4 with
         | None =>
             (handle_or_raise h r,
              set_current_task (Some task) (cancel h l4), t)
         | Some _ => (Raise (RuntimeError CannotEnterTask), cancel h l4, t)
         end
     end).
Proof.
  intros Hc He.
  destruct (__blocked_in_select l) eqn:Hb;
    destruct (current_task l) as [task|] eqn:Ht.
  all: unfold call_soon, suspended, scheduled, woken, wake_events,
    leave_events, enter_events, new_handle, when, BaseEventLoop_call_soon,
    _check_closed, _write_to_self, _leave_task, _enter_task, Handle_cancel,
    try_finally, extern, bind, get, modify, emit, raise, ret.
  all: repeat (progress (simpl; rewrite ?Hb, ?Hc, ?He, ?Ht, ?Nat.eqb_refl)).
  all: match goal with
       | |- context [Handle__run ?h ?s] =>
           destruct (Handle__run h s) as [r l4] eqn:Hrun
       end.
  all: unfold cancel; destruct (is_cancelled _ l4) eqn:Hcan; simpl;
    try (destruct (current_task l4) eqn:Ht4; simpl);
    destruct r; reflexivity.
Qed.

Lemma run_task_clears_flag (coro : Coro) (name : option nat) (l : Loop) :
  __call_soon_eagerly (snd (fst (run_task coro name l))) = false.
Proof.
  unfold run_task, try_finally.
  destruct ((modify (set_call_soon_eagerly true) ;;
             match name with
             | Some _ => create_task coro
             | None => create_task coro
             end) l) as [[r l1] t].
  reflexivity.
Qed.

(** [run_task] on a coroutine is [call_soon] of the task's first step
    with the flag set, and the flag cleared afterwards. *)
Lemma run_task_unfold (task : TaskId) (name : option nat) (l : Loop) :
  _closed l = false ->
  run_task (Coroutine task) name l
  = (let '(r, l1, t) :=
       call_soon (Step task) (set_call_soon_eagerly true l) in
     (match r with Return _ => Return task | Raise e => Raise e end,
      set_call_soon_eagerly false l1, t)).
Proof.
  intros Hc.
  unfold run_task, try_finally, create_task, _check_closed.
  unfold bind at 1, modify at 1.
  assert (Hb : forall (k : M TaskId) (l0 : Loop),
             _closed l0 = false ->
             ((l' <- get ;;
               if _closed l' then raise (RuntimeError EventLoopClosed)
               else ret tt) ;; k) l0 = k l0).
  { intros k l0 H0. unfold bind, get, ret. simpl. rewrite H0. simpl.
    destruct (k l0) as [[r0 l1] t0]. reflexivity. }
  assert (Hk : forall l0 : Loop,
             _closed l0 = false ->
             match name with
             | Some _ =>
                 (l' <- get ;;
                  if _closed l' then raise (RuntimeError EventLoopClosed)
                  else ret tt) ;; call_soon (Step task) ;; ret task
             | None =>
                 (l' <- get ;;
                  if _closed l' then raise (RuntimeError EventLoopClosed)
                  else ret tt) ;; call_soon (Step task) ;; ret task
             end l0
             = (call_soon (Step task) ;; ret task) l0).
  { intros l0 H0. destruct name; apply Hb; exact H0. }
  rewrite (Hk (set_call_soon_eagerly true l) Hc).
  unfold bind at 1, ret, modify.
  destruct (call_soon (Step task) (set_call_soon_eagerly true l))
    as [[[h|e] l1] t]; simpl; rewrite ?app_nil_r; reflexivity.
Qed.

(** A delivery is the tick on the loop with one emission taken from the
    queue, or nothing at all. *)
Lemma deliver_unfold (l : Loop) :
  Scheduling.deliver_notification l
  = match __notifier l with
    | Some n =>
        match Notifier.posted n with
        | S k =>
            let taken :=
              {| Notifier._callback := Notifier._callback n;
                 Notifier.connected := Notifier.connected n;
                 Notifier.posted := k |} in
            match Notifier._callback n with
            | Some _ => __process_asyncio_events (set_notifier (Some taken) l)
            | None => (Return tt, set_notifier (Some taken) l, [])
            end
        | O => (Return tt, l, [])
        end
    | None => (Return tt, l, [])
    end.
Proof.
  unfold Scheduling.deliver_notification, Notifier._on_notified.
  destruct (__notifier l) as [n|]; [| reflexivity].
  destruct (Notifier.posted n) as [|k]; [reflexivity |].
  simpl. destruct (Notifier._callback n); [| reflexivity].
  destruct (__process_asyncio_events _) as [[r l1] t1]. reflexivity.
Qed.

End CallSoonFacts.

(** C6.  Called with [__blocked_in_select] set, [stop] calls
    [_write_to_self] and only then [BaseEventLoop.stop], which sets
    [_stopping]; nothing is raised, and on a loop that is not closed the
    call sends a byte to the self-pipe.  On a nested running loop whose
    last tick yielded (selectable busy, nothing queued) that byte ends
    the background wait with no other I/O and no timeout, which queues
    one notification; its delivery runs a tick, and when the batch of
    that tick completes and leaves [_stopping] and the [QEventLoop] as it
    found them, the tick ends the foreign loop with [exit(0)].  Without
    the byte the wait does not end and nothing is delivered: the stop
    request alone is not observed. *)
Theorem stop_forces_wake_up_before_delegating :
  forall (E : Collaborators) (l : Loop),
    __blocked_in_select l = true ->
    fst (fst (stop l)) = Return tt
    /\ snd (stop l) = [Ev_write_to_self; Ev_super_stop]
    /\ _stopping (snd (fst (stop l))) = true
    /\ (_closed l = false ->
        stop l
        = (Return tt,
           set_stopping true (set_writes_to_self (S (writes_to_self l)) l),
           [Ev_write_to_self; Ev_super_stop])
        /\ writes_to_self (snd (fst (stop l))) = S (writes_to_self l))
    /\ (_closed l = false ->
        is_running l = true ->
        forall q : QEventLoop,
          __qt_event_loop l = Some q ->
          __notifier l
          = Some {| Notifier._callback := Some process_asyncio_events_method;
                    Notifier.connected := true; Notifier.posted := 0 |} ->
          Selectable.state (_selector l) = Selectable.BUSY ->
          Selectable.notifier (_selector l) = Some loop_notifier ->
          let stopped := snd (fst (stop l)) in
          let notified :=
            Scheduling.worker_wait (writes_to_self l) false false stopped in
          let input :=
            set_blocked_in_select false
              (set_notifier
                 (Some {| Notifier._callback :=
                            Some process_asyncio_events_method;
                          Notifier.connected := true;
                          Notifier.posted := 0 |})
                 notified) in
          Scheduling.queued stopped = 0%nat
          /\ Scheduling.queued notified = 1%nat
          /\ Selectable.state (_selector notified) = Selectable.IDLE
          /\ (forall l1 : Loop,
                 _run_once input = (Return tt, l1) ->
                 _stopping l1 = _stopping input ->
                 __qt_event_loop l1 = __qt_event_loop input ->
                 Scheduling.deliver_notification notified
                 = (Return tt,
                    set_qt_event_loop (Some {| exit_code := Some 0%Z |}) l1,
                    [Ev_run_once; Ev_qt_exit 0]))
          /\ Scheduling.worker_wait (writes_to_self l) false false
               (set_stopping true l)
             = set_stopping true l
          /\ Scheduling.deliver_notification (set_stopping true l)
             = (Return tt, set_stopping true l, [])).
Proof.
  intros E l Hb.
  assert (Hany : fst (fst (stop l)) = Return tt
                 /\ snd (stop l) = [Ev_write_to_self; Ev_super_stop]
                 /\ _stopping (snd (fst (stop l))) = true).
  { destruct (_closed l) eqn:Hc.
    - rewrite (stop_closed_unfold l Hc). unfold wake_events. rewrite Hb.
      repeat split.
    - rewrite (stop_unfold l Hc). unfold wake_events. rewrite Hb.
      repeat split. }
  destruct Hany as [H1 [H2 H3]].
  assert (Hopen : _closed l = false ->
                  stop l
                  = (Return tt,
                     set_stopping true
                       (set_writes_to_self (S (writes_to_self l)) l),
                     [Ev_write_to_self; Ev_super_stop])).
  { intros Hc. rewrite (stop_unfold l Hc). unfold woken, wake_events.
    rewrite Hb. reflexivity. }
  split; [exact H1 | split; [exact H2 | split; [exact H3 | split]]].
  - intros Hc. rewrite (Hopen Hc). split; reflexivity.
  - intros Hc Hr q Hq Hn Hss Hsn. cbv zeta. rewrite (Hopen Hc).
    cbn [fst snd].
    assert (Hlt : Nat.ltb (writes_to_self l) (S (writes_to_self l)) = true)
      by (apply Nat.ltb_lt; lia).
    assert (Hirr : Nat.ltb (writes_to_self l) (writes_to_self l) = false)
      by (apply Nat.ltb_irrefl).
    unfold Scheduling.worker_wait. simpl. rewrite Hss, Hsn, Hn, Hlt, Hirr.
    simpl.
    split; [unfold Scheduling.queued; simpl; rewrite Hn; reflexivity |].
    split; [reflexivity | split; [reflexivity | split; [| split]]].
    + intros l1 Hbatch Hs1 Hq1.
      rewrite deliver_unfold. simpl.
      rewrite tick_unfold; [| exact Hc | exact Hr].
      simpl. simpl in Hbatch. rewrite Hbatch.
      simpl in Hs1, Hq1. rewrite Hs1, Hq1, Hq. reflexivity.
    + reflexivity.
    + rewrite deliver_unfold. simpl. rewrite Hn. reflexivity.
Qed.

Lemma stop_forces_wake_up_before_delegating_witness :
  stop Cases.yielded_loop
  = (Return tt,
     set_stopping true (set_writes_to_self 1 Cases.yielded_loop),
     [Ev_write_to_self; Ev_super_stop])
  /\ Scheduling.queued
       (Scheduling.worker_wait 0 false false
          (snd (fst (stop Cases.yielded_loop)))) = 1%nat
  /\ fst (@Scheduling.deliver_notification Sample.completing
            (Scheduling.worker_wait 0 false false
               (snd (fst (stop Cases.yielded_loop)))))
     = (Return tt,
        set_qt_event_loop (Some {| exit_code := Some 0%Z |})
          (set_blocked_in_select false
             (set_selector
                {| Selectable.state := Selectable.IDLE;
                   Selectable.notifier := Some loop_notifier;
                   Selectable.worker := None |}
                (snd (fst (stop Cases.yielded_loop))))))
  /\ @Scheduling.deliver_notification Sample.completing
       (set_stopping true Cases.yielded_loop)
     = (Return tt, set_stopping true Cases.yielded_loop, []).
Proof.
  destruct (stop_forces_wake_up_before_delegating
              Sample.completing Cases.yielded_loop eq_refl)
    as [_ [_ [_ [Hopen Hnext]]]].
  destruct (Hopen eq_refl) as [Hstop _].
  destruct (Hnext eq_refl eq_refl {| exit_code := None |}
              eq_refl eq_refl eq_refl eq_refl)
    as [_ [Hq [_ [Htick [_ Hnone]]]]].
  split; [exact Hstop | split; [exact Hq | split; [| exact Hnone]]].
  exact (f_equal fst (Htick _ eq_refl eq_refl eq_refl)).
Defined.

(** C5.  A [call_soon] made with [__call_soon_eagerly] set, on a loop
    that is not closed, runs the new handle before it returns: the handle
    runs on a loop in which the flag is already cleared, the caller's
    current task has been left and the handle is in [_ready]; afterwards
    the handle is cancelled and the caller's task is entered again, so
    that the loop step of [_run_once] skips the handle.  The calls are
    made in this order: the wake-up if the loop was blocked,
    [super().call_soon], [_leave_task], the run, [cancel], [_enter_task].
    [run_task] leaves the flag cleared whatever happens, and on a
    coroutine it is this [call_soon] of the task's first step.  (The step
    is taken to leave no current task behind, as a task step does.) *)
Theorem eager_call_soon_runs_callback_before_returning :
  forall (E : Collaborators) (cb : Callback) (l l4 : Loop) (r : Result unit),
    _closed l = false ->
    __call_soon_eagerly l = true ->
    Handle__run (new_handle cb l) (suspended cb l) = (r, l4) ->
    current_task l4 = None ->
    __call_soon_eagerly (suspended cb l) = false
    /\ current_task (suspended cb l) = None
    /\ In (new_handle cb l) (_ready (suspended cb l))
    /\ callback (new_handle cb l) = cb
    /\ (exists final : Loop,
           call_soon cb l
           = (handle_or_raise (new_handle cb l) r, final,
              wake_events l ++ [Ev_super_call_soon (new_handle cb l)]
                ++ leave_events l
                ++ [Ev_handle_run (new_handle cb l);
                    Ev_handle_cancel (new_handle cb l)]
                ++ enter_events l)
           /\ final = set_current_task (current_task l)
                        (cancel (new_handle cb l) l4)
           /\ current_task final = current_task l
           /\ is_cancelled (new_handle cb l) final = true
           /\ ready_step (new_handle cb l) final = (Return tt, final, []))
    /\ (forall (coro : Coro) (name : option nat) (l' : Loop),
           __call_soon_eagerly (snd (fst (run_task coro name l'))) = false)
    /\ (forall (task : TaskId) (name : option nat) (l' : Loop),
           _closed l' = false ->
           run_task (Coroutine task) name l'
           = (let '(r', l1, t) :=
                call_soon (Step task) (set_call_soon_eagerly true l') in
              (match r' with Return _ => Return task | Raise e => Raise e end,
               set_call_soon_eagerly false l1, t))).
Proof.
  intros E cb l l4 r Hc He Hrun Hbal.
  destruct (suspended_facts cb l) as [Hflag [Hcur [Hin Hcb]]].
  split; [exact Hflag | split; [exact Hcur | split; [exact Hin |
    split; [exact Hcb | split; [| split]]]]].
  - exists (set_current_task (current_task l) (cancel (new_handle cb l) l4)).
    assert (Hcan : is_cancelled (new_handle cb l)
                     (set_current_task (current_task l)
                        (cancel (new_handle cb l) l4)) = true)
      by (exact (is_cancelled_cancel (new_handle cb l) l4)).
    split; [| split; [reflexivity | split; [reflexivity | split;
      [exact Hcan | exact (ready_step_cancelled _ _ Hcan)]]]].
    rewrite (call_soon_eager_unfold cb l Hc He). cbv zeta. rewrite Hrun.
    destruct (current_task l) as [task|] eqn:Ht.
    + rewrite Hbal. reflexivity.
    + replace (set_current_task None (cancel (new_handle cb l) l4))
        with (cancel (new_handle cb l) l4); [reflexivity |].
      pose proof (current_task_cancel (new_handle cb l) l4) as Hk.
      rewrite Hbal in Hk.
      destruct (cancel (new_handle cb l) l4). simpl in Hk. subst.
      reflexivity.
  - intros coro name l'. apply run_task_clears_flag.
  - intros task name l' Hc'. apply run_task_unfold. exact Hc'.
Qed.

Lemma eager_call_soon_runs_callback_before_returning_witness :
  exists final : Loop,
    @call_soon Sample.completing (Step 9%nat) Sample.eager_loop
    = (Return {| hid := 0; callback := Step 9%nat |}, final,
       [Ev_super_call_soon {| hid := 0; callback := Step 9%nat |};
        Ev_leave_task 4%nat;
        Ev_handle_run {| hid := 0; callback := Step 9%nat |};
        Ev_handle_cancel {| hid := 0; callback := Step 9%nat |};
        Ev_enter_task 4%nat])
    /\ current_task final = Some 4%nat
    /\ is_cancelled {| hid := 0; callback := Step 9%nat |} final = true.
Proof.
  destruct (eager_call_soon_runs_callback_before_returning
              Sample.completing (Step 9%nat) Sample.eager_loop
              (l4 := suspended (Step 9%nat) Sample.eager_loop) (r := Return tt)
              eq_refl eq_refl eq_refl eq_refl)
    as [_ [_ [_ [_ [[final [Hcall [_ [Hcur [Hcan _]]]]] _]]]]].
  exists final. split; [exact Hcall | split; [exact Hcur | exact Hcan]].
Defined.

(** C10.  When the handle run eagerly by [call_soon] raises, the
    [finally] clause still cancels the handle and, when the caller had a
    current task, enters that task again; only then does the exception
    leave [call_soon].  Whether or not the run raises, the loop is left
    with the caller's current task as it was found and with the handle
    cancelled.  (The step is taken to leave no current task behind, as a
    task step does.) *)
Theorem eager_call_soon_restores_caller_when_callback_raises :
  forall (E : Collaborators) (cb : Callback) (l l4 : Loop) (r : Result unit),
    _closed l = false ->
    __call_soon_eagerly l = true ->
    Handle__run (new_handle cb l) (suspended cb l) = (r, l4) ->
    current_task l4 = None ->
    (forall e : exn,
        r = Raise e ->
        call_soon cb l
        = (Raise e,
           set_current_task (current_task l) (cancel (new_handle cb l) l4),
           wake_events l ++ [Ev_super_call_soon (new_handle cb l)]
             ++ leave_events l
             ++ [Ev_handle_run (new_handle cb l);
                 Ev_handle_cancel (new_handle cb l)]
             ++ enter_events l))
    /\ (forall task : TaskId,
           current_task l = Some task ->
           enter_events l = [Ev_enter_task task])
    /\ is_cancelled (new_handle cb l) (snd (fst (call_soon cb l))) = true
    /\ current_task (snd (fst (call_soon cb l))) = current_task l.
Proof.
  intros E cb l l4 r Hc He Hrun Hbal.
  assert (Hcall : call_soon cb l
                  = (handle_or_raise (new_handle cb l) r,
                     set_current_task (current_task l)
                       (cancel (new_handle cb l) l4),
                     wake_events l ++ [Ev_super_call_soon (new_handle cb l)]
                       ++ leave_events l
                       ++ [Ev_handle_run (new_handle cb l);
                           Ev_handle_cancel (new_handle cb l)]
                       ++ enter_events l)).
  { rewrite (call_soon_eager_unfold cb l Hc He). cbv zeta. rewrite Hrun.
    destruct (current_task l) as [task|] eqn:Ht.
    - rewrite Hbal. reflexivity.
    - replace (set_current_task None (cancel (new_handle cb l) l4))
        with (cancel (new_handle cb l) l4); [reflexivity |].
      pose proof (current_task_cancel (new_handle cb l) l4) as Hk.
      rewrite Hbal in Hk.
      destruct (cancel (new_handle cb l) l4). simpl in Hk. subst.
      reflexivity. }
  split; [| split; [| split]].
  - intros e ->. exact Hcall.
  - intros task Ht. unfold enter_events. rewrite Ht. reflexivity.
  - rewrite Hcall. exact (is_cancelled_cancel (new_handle cb l) l4).
  - rewrite Hcall. reflexivity.
Qed.

Lemma eager_call_soon_restores_caller_when_callback_raises_witness :
  @call_soon Sample.interrupted (Step 9%nat) Sample.eager_loop
  = (Raise KeyboardInterrupt,
     set_current_task (Some 4%nat)
       (cancel {| hid := 0; callback := Step 9%nat |}
          (suspended (Step 9%nat) Sample.eager_loop)),
     [Ev_super_call_soon {| hid := 0; callback := Step 9%nat |};
      Ev_leave_task 4%nat;
      Ev_handle_run {| hid := 0; callback := Step 9%nat |};
      Ev_handle_cancel {| hid := 0; callback := Step 9%nat |};
      Ev_enter_task 4%nat]).
Proof.
  exact (proj1 (eager_call_soon_restores_caller_when_callback_raises
                  Sample.interrupted (Step 9%nat) Sample.eager_loop
                  (l4 := suspended (Step 9%nat) Sample.eager_loop)
                  (r := Raise KeyboardInterrupt)
                  eq_refl eq_refl eq_refl eq_refl)
               KeyboardInterrupt eq_refl).
Defined.

(** * Further properties of the modelled code *)

(** ** Entering and leaving the running state *)

(** The three refusals of [__enter__], in the order of its checks. *)
Lemma enter_refused (l : Loop) :
  (_closed l = true ->
   __enter__ l = (Raise (RuntimeError EventLoopClosed), l, [Ev_enter]))
  /\ (_closed l = false -> is_running l = true ->
      __enter__ l = (Raise (RuntimeError LoopAlreadyRunning), l, [Ev_enter]))
  /\ (_closed l = false -> is_running l = false ->
      forall other : LoopRef,
        running_loop l = Some other ->
        __enter__ l
        = (Raise (RuntimeError AnotherLoopRunning), l, [Ev_enter])).
Proof.
  unfold __enter__, _check_closed, _check_running, bind, emit, get, raise, ret.
  simpl.
  split; [| split].
  - intros Hc. rewrite Hc. reflexivity.
  - intros Hc Hr. rewrite Hc. simpl. rewrite Hr. reflexivity.
  - intros Hc Hr other Ho. rewrite Hc. simpl. rewrite Hr, Ho. reflexivity.
Qed.

(** X1.  [__enter__] refuses a closed loop, a loop that is already
    running, and any loop while another loop is the running one, in this
    order of checks; each refusal is a [RuntimeError] and leaves the loop
    exactly as it was: no notifier is created and the asyncgen hooks are
    not replaced. *)
Theorem enter_refusals_leave_loop_untouched :
  forall l : Loop,
    (_closed l = true ->
     __enter__ l = (Raise (RuntimeError EventLoopClosed), l, [Ev_enter]))
    /\ (_closed l = false -> is_running l = true ->
        __enter__ l = (Raise (RuntimeError LoopAlreadyRunning), l, [Ev_enter]))
    /\ (_closed l = false -> is_running l = false ->
        forall other : LoopRef,
          running_loop l = Some other ->
          __enter__ l
          = (Raise (RuntimeError AnotherLoopRunning), l, [Ev_enter])).
Proof.
  intros l. exact (enter_refused l).
Qed.

Lemma enter_refusals_leave_loop_untouched_witness :
  __enter__ Sample.attached_loop
  = (Raise (RuntimeError LoopAlreadyRunning), Sample.attached_loop, [Ev_enter]).
Proof.
  exact (proj1 (proj2 (enter_refusals_leave_loop_untouched
                         Sample.attached_loop))
               eq_refl eq_refl).
Defined.

(** X2.  On a loop that is not closed and not running, with no other
    loop running, [__enter__] returns and leaves the loop running, marked
    as the running loop, with the loop's own asyncgen hooks installed and
    the previous ones saved, with a connected notifier installed on the
    selector, and with exactly one notification queued for the first
    tick.  It touches neither [_stopping] nor [_ready]: a stop requested
    or a callback scheduled before the run is still there. *)
Theorem enter_installs_notifier_and_queues_first_tick :
  forall l : Loop,
    _closed l = false -> _thread_id l = None -> running_loop l = None ->
    exists l1 : Loop,
      __enter__ l = (Return tt, l1, [Ev_enter; Ev_notify; Ev_set_notifier true])
      /\ is_running l1 = true
      /\ running_loop l1 = Some Self
      /\ asyncgen_hooks l1 = LoopHooks
      /\ __old_agen_hooks l1 = Some (asyncgen_hooks l)
      /\ __notifier l1
         = Some {| Notifier._callback := Some process_asyncio_events_method;
                   Notifier.connected := true; Notifier.posted := 1 |}
      /\ Scheduling.queued l1 = 1%nat
      /\ Selectable.notifier (_selector l1) = Some loop_notifier
      /\ _stopping l1 = _stopping l
      /\ _ready l1 = _ready l.
Proof.
  intros l Hc Ht Hr.
  unfold __enter__, _check_closed, _check_running, is_running,
    notifier_notify, create_notifier, bind, emit, get, modify, raise, ret.
  simpl. rewrite Hc. simpl. rewrite Ht, Hr. simpl.
  eexists. split; [reflexivity |]. simpl.
  repeat split.
  unfold Selectable.set_notifier.
  destruct (Selectable.state (_selector l)); reflexivity.
Qed.

Lemma enter_installs_notifier_and_queues_first_tick_witness :
  exists l1 : Loop,
    __enter__ (snd (fst (stop Sample.new_loop)))
    = (Return tt, l1, [Ev_enter; Ev_notify; Ev_set_notifier true])
    /\ Scheduling.queued l1 = 1%nat
    /\ _stopping l1 = true.
Proof.
  destruct (enter_installs_notifier_and_queues_first_tick
              (snd (fst (stop Sample.new_loop))) eq_refl eq_refl eq_refl)
    as [l1 [He [_ [_ [_ [_ [_ [Hq [_ [Hs _]]]]]]]]]].
  exists l1. split; [exact He | split; [exact Hq | exact Hs]].
Defined.

(** X3.  [__exit__] undoes [__enter__]: on a loop as [__init__] leaves it
    as far as running is concerned (no notifier, no saved hooks, not
    running, nothing installed on a selector that is not busy), entering
    and then leaving gives back the same loop, except that [_stopping] is
    cleared, so a stop requested before or during the run does not carry
    over. *)
Theorem exit_after_enter_restores_loop :
  forall l : Loop,
    _closed l = false -> _thread_id l = None -> running_loop l = None ->
    __notifier l = None -> __old_agen_hooks l = None ->
    Selectable.notifier (_selector l) = None ->
    Selectable.state (_selector l) <> Selectable.BUSY ->
    exists l1 : Loop,
      __enter__ l = (Return tt, l1, [Ev_enter; Ev_notify; Ev_set_notifier true])
      /\ __exit__ l1
         = (Return tt, set_stopping false l,
            [Ev_exit; Ev_set_notifier false; Ev_notifier_close]).
Proof.
  intros l Hc Ht Hr Hn Hh Hsn Hss.
  unfold __enter__, __exit__, _check_closed, _check_running, is_running,
    notifier_notify, create_notifier, bind, emit, get, modify, raise, ret.
  simpl. rewrite Hc. simpl. rewrite Ht, Hr. simpl.
  eexists. split; [reflexivity |]. simpl.
  destruct l as [qt nf bl er oh eg cl st th rd sel nh ca wr rl ct ah qa idn].
  simpl in *. subst.
  destruct sel as [ss sn sw]. simpl in *. subst.
  unfold set_stopping, Selectable.set_notifier. simpl.
  destruct ss; try reflexivity. contradiction Hss. reflexivity.
Qed.

Lemma exit_after_enter_restores_loop_witness :
  exists l1 : Loop,
    __enter__ (snd (fst (stop Sample.new_loop)))
    = (Return tt, l1, [Ev_enter; Ev_notify; Ev_set_notifier true])
    /\ __exit__ l1
       = (Return tt, Sample.new_loop,
          [Ev_exit; Ev_set_notifier false; Ev_notifier_close]).
Proof.
  destruct (exit_after_enter_restores_loop
              (snd (fst (stop Sample.new_loop)))
              eq_refl eq_refl eq_refl eq_refl eq_refl eq_refl
              ltac:(discriminate))
    as [l1 [He Hx]].
  exists l1. split; [exact He | exact Hx].
Defined.

(** X4.  [__exit__] always leaves the loop not running, without
    notifier, with no running loop marked, with [_stopping] cleared and
    with no hooks saved, whether it returns or raises.  It raises
    [TypeError] when no hooks are saved, so the second of two calls in a
    row always does; the error comes after the attributes are reset and
    leaves the installed asyncgen hooks as they are. *)
Theorem exit_always_stops_loop_and_fails_when_repeated :
  forall l : Loop,
    let l' := snd (fst (__exit__ l)) in
    is_running l' = false
    /\ __notifier l' = None
    /\ running_loop l' = None
    /\ _stopping l' = false
    /\ __old_agen_hooks l' = None
    /\ (fst (fst (__exit__ l)) = Raise TypeError <-> __old_agen_hooks l = None)
    /\ (__old_agen_hooks l = None -> asyncgen_hooks l' = asyncgen_hooks l)
    /\ fst (fst (__exit__ l')) = Raise TypeError.
Proof.
  intros l.
  assert (Hnone : forall l0, __old_agen_hooks l0 = None ->
                             fst (fst (__exit__ l0)) = Raise TypeError).
  { intros l0 H0.
    unfold __exit__, bind, emit, get, modify, raise, ret. simpl.
    rewrite H0. destruct (__notifier l0); reflexivity. }
  assert (Hfacts :
            is_running (snd (fst (__exit__ l))) = false
            /\ __notifier (snd (fst (__exit__ l))) = None
            /\ running_loop (snd (fst (__exit__ l))) = None
            /\ _stopping (snd (fst (__exit__ l))) = false
            /\ __old_agen_hooks (snd (fst (__exit__ l))) = None).
  { unfold __exit__, bind, emit, get, modify, raise, ret. simpl.
    destruct (__notifier l) eqn:Hn; destruct (__old_agen_hooks l);
      simpl; repeat split; exact Hn. }
  destruct Hfacts as [H1 [H2 [H3 [H4 H5]]]].
  cbv zeta.
  split; [exact H1 | split; [exact H2 | split; [exact H3 | split;
    [exact H4 | split; [exact H5 | split; [| split]]]]]].
  - split; [| apply Hnone].
    unfold __exit__, bind, emit, get, modify, raise, ret. simpl.
    destruct (__notifier l); destruct (__old_agen_hooks l); simpl;
      intros Hr; try reflexivity; discriminate Hr.
  - intros Hh.
    unfold __exit__, bind, emit, get, modify, raise, ret. simpl.
    rewrite Hh. destruct (__notifier l); reflexivity.
  - apply Hnone. exact H5.
Qed.

(** X5.  [with self:] runs [__exit__] whatever its body does: once
    [__enter__] has succeeded, for a body with any outcome (a value or an
    exception) that leaves the saved hooks in place, the statement has
    the outcome of the body, and the loop is left not running, without
    notifier, with no running loop marked, with the hooks found before
    the body restored and with [_stopping] cleared. *)
Theorem with_self_always_leaves_the_running_state :
  forall (A : Type) (body : M A) (l l1 l2 : Loop) (t1 t2 : list Event)
         (r : Result A) (hooks : Hooks),
    __enter__ l = (Return tt, l1, t1) ->
    body l1 = (r, l2, t2) ->
    __old_agen_hooks l2 = Some hooks ->
    exists (l3 : Loop) (t3 : list Event),
      with_self body l = (r, l3, t1 ++ t2 ++ Ev_exit :: t3)
      /\ is_running l3 = false
      /\ __notifier l3 = None
      /\ running_loop l3 = None
      /\ asyncgen_hooks l3 = hooks
      /\ _stopping l3 = false.
Proof.
  intros A body l l1 l2 t1 t2 r hooks He Hb Hh.
  destruct (exit_returns l2 (hooks := hooks) Hh)
    as [l3 [t3 [Hexit [_ [_ [Hn [Hr [Hrl [Hs Hah]]]]]]]]].
  exists l3, t3.
  split; [| repeat split; assumption].
  unfold with_self, bind, try_finally. rewrite He, Hb, Hexit. reflexivity.
Qed.

Lemma with_self_always_leaves_the_running_state_witness :
  exists (l3 : Loop) (t3 : list Event),
    with_self (stop ;; raise (A := unit) (UserError 2)) Sample.new_loop
    = (Raise (UserError 2), l3,
       [Ev_enter; Ev_notify; Ev_set_notifier true] ++ [Ev_super_stop]
         ++ Ev_exit :: t3)
    /\ is_running l3 = false
    /\ _stopping l3 = false.
Proof.
  destruct (with_self_always_leaves_the_running_state
              (stop ;; raise (A := unit) (UserError 2))
              Sample.new_loop
              (l1 := Sample.attached_loop)
              (l2 := set_stopping true Sample.attached_loop)
              (t1 := [Ev_enter; Ev_notify; Ev_set_notifier true])
              (t2 := [Ev_super_stop])
              (r := Raise (UserError 2)) (hooks := SystemHooks 0)
              eq_refl eq_refl eq_refl)
    as [l3 [t3 [Hw [Hr [_ [_ [_ Hs]]]]]]].
  exists l3, t3. split; [exact Hw | split; [exact Hr | exact Hs]].
Defined.

(** X6.  Without a [QCoreApplication], [run_forever] raises its
    [RuntimeError] before anything else: the loop is unchanged, and
    neither [__enter__] nor the foreign loop is called, even when the
    loop is closed or already running. *)
Theorem run_forever_requires_application :
  forall (E : Collaborators) (l : Loop),
    qapp l = false ->
    run_forever l = (Raise (RuntimeError NoQCoreApplication), l, []).
Proof.
  intros E l Hq. unfold run_forever, bind, get, raise. simpl.
  rewrite Hq. reflexivity.
Qed.

Lemma run_forever_requires_application_witness :
  @run_forever Sample.completing Cases.closed_loop_without_application
  = (Raise (RuntimeError NoQCoreApplication),
     Cases.closed_loop_without_application, []).
Proof.
  apply run_forever_requires_application. reflexivity.
Defined.

(** X7.  When [__enter__] refuses the loop, [run_forever] raises that
    error and does nothing else: the foreign loop is not started,
    [__exit__] is not run, and the loop is unchanged.  In particular a
    [run_forever] called from inside a running loop raises and leaves the
    running loop, its notifier, its [QEventLoop] and its stored error as
    they are. *)
Theorem run_forever_refused_leaves_running_loop_intact :
  forall (E : Collaborators) (l : Loop),
    qapp l = true ->
    (_closed l = true ->
     run_forever l = (Raise (RuntimeError EventLoopClosed), l, [Ev_enter]))
    /\ (_closed l = false -> is_running l = true ->
        run_forever l
        = (Raise (RuntimeError LoopAlreadyRunning), l, [Ev_enter]))
    /\ (_closed l = false -> is_running l = false ->
        forall other : LoopRef,
          running_loop l = Some other ->
          run_forever l
          = (Raise (RuntimeError AnotherLoopRunning), l, [Ev_enter])).
Proof.
  intros E l Hq.
  assert (Hfail : forall e, __enter__ l = (Raise e, l, [Ev_enter]) ->
                            run_forever l = (Raise e, l, [Ev_enter])).
  { intros e He. unfold run_forever, with_self, bind at 1, get. rewrite Hq.
    simpl. unfold bind at 1. rewrite He. reflexivity. }
  destruct (enter_refused l) as [H1 [H2 H3]].
  split; [| split].
  - intros Hc. apply Hfail, H1, Hc.
  - intros Hc Hr. apply Hfail, H2; assumption.
  - intros Hc Hr other Ho. apply Hfail, (H3 Hc Hr other Ho).
Qed.

Lemma run_forever_refused_leaves_running_loop_intact_witness :
  @run_forever Sample.failing Sample.nested_loop
  = (Raise (RuntimeError LoopAlreadyRunning), Sample.nested_loop, [Ev_enter]).
Proof.
  exact (proj1 (proj2 (run_forever_refused_leaves_running_loop_intact
                         Sample.failing Sample.nested_loop eq_refl))
               eq_refl eq_refl).
Defined.

(** ** Scheduling callbacks *)

Section SchedulingFacts.

Context `{Collaborators}.

Lemma call_soon_queued_unfold (cb : Callback) (l : Loop) :
  _closed l = false ->
  __call_soon_eagerly l = false ->
  call_soon cb l
  = (Return (new_handle cb l), scheduled cb l,
     wake_events l ++ [Ev_super_call_soon (new_handle cb l)]).
Proof.
  intros Hc He.
  unfold call_soon, scheduled, woken, wake_events, new_handle, when,
    BaseEventLoop_call_soon, _check_closed, _write_to_self,
    bind, get, modify, emit, raise, ret.
  destruct (__blocked_in_select l) eqn:Hb;
    repeat (progress (simpl; rewrite ?Hb, ?Hc, ?He)); reflexivity.
Qed.

Lemma scheduled_facts (cb : Callback) (l : Loop) :
  _ready (scheduled cb l) = _ready l ++ [new_handle cb l]
  /\ next_handle (scheduled cb l) = S (next_handle l)
  /\ cancelled (scheduled cb l) = cancelled l
  /\ current_task (scheduled cb l) = current_task l
  /\ _closed (scheduled cb l) = _closed l
  /\ __call_soon_eagerly (scheduled cb l) = __call_soon_eagerly l.
Proof.
  unfold scheduled, woken.
  destruct (__blocked_in_select l); simpl; repeat split.
Qed.

Lemma call_soon_closed_unfold (cb : Callback) (l : Loop) :
  _closed l = true ->
  call_soon cb l = (Raise (RuntimeError EventLoopClosed), l, wake_events l).
Proof.
  intros Hc.
  unfold call_soon, wake_events, when, BaseEventLoop_call_soon,
    _check_closed, _write_to_self, bind, get, modify, emit, raise, ret.
  destruct (__blocked_in_select l) eqn:Hb;
    repeat (progress (simpl; rewrite ?Hb, ?Hc)); reflexivity.
Qed.

End SchedulingFacts.

(** X8.  Outside eager mode, [call_soon] on a loop that is not closed
    only queues: it returns a new handle holding the callback, appended
    at the end of [_ready] behind the handles already there, runs
    nothing, cancels nothing and leaves the current task alone; the
    self-pipe is written first exactly when the loop is blocked in
    select.  Two calls in a row queue two handles with distinct
    identities, in the order of the calls. *)
Theorem call_soon_queues_in_call_order :
  forall (E : Collaborators) (cb cb2 : Callback) (l : Loop),
    _closed l = false ->
    __call_soon_eagerly l = false ->
    call_soon cb l
    = (Return {| hid := next_handle l; callback := cb |}, scheduled cb l,
       wake_events l
         ++ [Ev_super_call_soon {| hid := next_handle l; callback := cb |}])
    /\ _ready (scheduled cb l)
       = _ready l ++ [{| hid := next_handle l; callback := cb |}]
    /\ cancelled (scheduled cb l) = cancelled l
    /\ current_task (scheduled cb l) = current_task l
    /\ writes_to_self (scheduled cb l)
       = (if __blocked_in_select l then S (writes_to_self l)
          else writes_to_self l)
    /\ fst (fst ((call_soon cb ;; call_soon cb2) l))
       = Return {| hid := S (next_handle l); callback := cb2 |}
    /\ _ready (snd (fst ((call_soon cb ;; call_soon cb2) l)))
       = _ready l ++ [{| hid := next_handle l; callback := cb |};
                      {| hid := S (next_handle l); callback := cb2 |}].
Proof.
  intros E cb cb2 l Hc He.
  pose proof (call_soon_queued_unfold cb l Hc He) as H1.
  destruct (scheduled_facts cb l) as [Hr [Hn [Hca [Hct [Hcl Heg]]]]].
  assert (H2 := call_soon_queued_unfold cb2 (scheduled cb l)
                  (eq_trans Hcl Hc) (eq_trans Heg He)).
  destruct (scheduled_facts cb2 (scheduled cb l)) as [Hr2 _].
  unfold new_handle in *.
  split; [exact H1 | split; [exact Hr | split; [exact Hca | split;
    [exact Hct | split; [| split]]]]].
  - unfold scheduled, woken. destruct (__blocked_in_select l); reflexivity.
  - unfold bind. rewrite H1, H2. cbn [fst snd]. rewrite Hn. reflexivity.
  - unfold bind. rewrite H1, H2. cbn [fst snd].
    rewrite Hr2, Hr, Hn, <- app_assoc. reflexivity.
Qed.

Lemma call_soon_queues_in_call_order_witness :
  @call_soon Sample.completing (Plain 1) Sample.blocked_loop
  = (Return {| hid := 0; callback := Plain 1 |},
     scheduled (Plain 1) Sample.blocked_loop,
     [Ev_write_to_self;
      Ev_super_call_soon {| hid := 0; callback := Plain 1 |}])
  /\ _ready (snd (fst ((@call_soon Sample.completing (Plain 1) ;;
                        @call_soon Sample.completing (Plain 2))
                         Sample.blocked_loop)))
     = [{| hid := 0; callback := Plain 1 |};
        {| hid := 1; callback := Plain 2 |}].
Proof.
  destruct (call_soon_queues_in_call_order
              Sample.completing (Plain 1) (Plain 2) Sample.blocked_loop
              eq_refl eq_refl)
    as [H1 [_ [_ [_ [_ [_ H2]]]]]].
  split; [exact H1 | exact H2].
Defined.

(** X9.  On a closed loop [call_soon] raises the [RuntimeError] of the
    closed check and leaves the loop exactly as it was: nothing is
    queued, no handle is run even in eager mode, the eager flag keeps its
    value and no byte is sent to the self-pipe.  If the loop was left
    blocked in select, [_write_to_self] is still called before the check,
    and sends nothing because the pipe is gone. *)
Theorem call_soon_on_closed_loop_schedules_nothing :
  forall (E : Collaborators) (cb : Callback) (l : Loop),
    _closed l = true ->
    call_soon cb l = (Raise (RuntimeError EventLoopClosed), l, wake_events l)
    /\ (__blocked_in_select l = false -> wake_events l = [])
    /\ (__blocked_in_select l = true -> wake_events l = [Ev_write_to_self]).
Proof.
  intros E cb l Hc.
  split; [exact (call_soon_closed_unfold cb l Hc) |].
  unfold wake_events.
  destruct (__blocked_in_select l); split; intros Hb; try reflexivity;
    discriminate Hb.
Qed.

Lemma call_soon_on_closed_loop_schedules_nothing_witness :
  @call_soon Sample.completing (Step 3%nat) Cases.closed_loop
  = (Raise (RuntimeError EventLoopClosed), Cases.closed_loop,
     [Ev_write_to_self]).
Proof.
  exact (proj1 (call_soon_on_closed_loop_schedules_nothing
                  Sample.completing (Step 3%nat) Cases.closed_loop eq_refl)).
Defined.

(** X10.  [run_task] never leaves the eager flag set when no task is
    started: on a closed loop it raises the [RuntimeError] of
    [create_task]'s closed check, and for an argument that is not a
    coroutine it raises [TypeError]; in both cases the flag is cleared
    again, nothing is queued or run, and the self-pipe is not written
    even on a loop blocked in select. *)
Theorem run_task_failure_clears_eager_flag :
  forall (E : Collaborators) (name : option nat) (l : Loop),
    (_closed l = true ->
     forall coro : Coro,
       run_task coro name l
       = (Raise (RuntimeError EventLoopClosed),
          set_call_soon_eagerly false l, []))
    /\ (_closed l = false ->
        run_task NotACoroutine name l
        = (Raise TypeError, set_call_soon_eagerly false l, []))
    /\ __call_soon_eagerly (set_call_soon_eagerly false l) = false
    /\ _ready (set_call_soon_eagerly false l) = _ready l
    /\ writes_to_self (set_call_soon_eagerly false l) = writes_to_self l.
Proof.
  intros E name l.
  split; [| split; [| repeat split]].
  - intros Hc coro.
    unfold run_task, try_finally, create_task, _check_closed, bind, get,
      modify, raise, ret.
    destruct name; simpl; rewrite Hc; reflexivity.
  - intros Hc.
    unfold run_task, try_finally, create_task, _check_closed, bind, get,
      modify, raise, ret.
    destruct name; simpl; rewrite Hc; reflexivity.
Qed.

Lemma run_task_failure_clears_eager_flag_witness :
  @run_task Sample.completing (Coroutine 3%nat) None Cases.closed_loop
  = (Raise (RuntimeError EventLoopClosed),
     set_call_soon_eagerly false Cases.closed_loop, [])
  /\ @run_task Sample.completing NotACoroutine (Some 8%nat)
       Sample.blocked_loop
     = (Raise TypeError, Sample.blocked_loop, []).
Proof.
  split.
  - exact (proj1 (run_task_failure_clears_eager_flag
                    Sample.completing None Cases.closed_loop)
                 eq_refl (Coroutine 3%nat)).
  - exact (proj1 (proj2 (run_task_failure_clears_eager_flag
                           Sample.completing (Some 8%nat)
                           Sample.blocked_loop))
                 eq_refl).
Defined.

(** X11.  When the eagerly run handle leaves a task current while the
    caller had one, the caller's task cannot be entered again:
    [call_soon] then raises the [RuntimeError] of [_enter_task], which
    replaces the outcome of the handle, whether that was a return or an
    exception.  The handle has been cancelled all the same, and the
    current task is left as the handle left it. *)
Theorem eager_call_soon_fails_when_step_leaves_task_current :
  forall (E : Collaborators) (cb : Callback) (l l4 : Loop)
         (r : Result unit) (task other : TaskId),
    _closed l = false ->
    __call_soon_eagerly l = true ->
    current_task l = Some task ->
    Handle__run (new_handle cb l) (suspended cb l) = (r, l4) ->
    current_task l4 = Some other ->
    call_soon cb l
    = (Raise (RuntimeError CannotEnterTask), cancel (new_handle cb l) l4,
       wake_events l
         ++ [Ev_super_call_soon (new_handle cb l); Ev_leave_task task;
             Ev_handle_run (new_handle cb l);
             Ev_handle_cancel (new_handle cb l); Ev_enter_task task])
    /\ is_cancelled (new_handle cb l) (cancel (new_handle cb l) l4) = true
    /\ current_task (cancel (new_handle cb l) l4) = Some other.
Proof.
  intros E cb l l4 r task other Hc He Ht Hrun H4.
  split; [| split].
  - rewrite (call_soon_eager_unfold cb l Hc He). cbv zeta.
    rewrite Hrun, Ht, H4. unfold leave_events, enter_events. rewrite Ht.
    reflexivity.
  - apply is_cancelled_cancel.
  - rewrite current_task_cancel. exact H4.
Qed.

Lemma eager_call_soon_fails_when_step_leaves_task_current_witness :
  @call_soon Cases.entering (Step 9%nat) Sample.eager_loop
  = (Raise (RuntimeError CannotEnterTask),
     cancel {| hid := 0; callback := Step 9%nat |}
       (set_current_task (Some 9%nat)
          (suspended (Step 9%nat) Sample.eager_loop)),
     [Ev_super_call_soon {| hid := 0; callback := Step 9%nat |};
      Ev_leave_task 4%nat;
      Ev_handle_run {| hid := 0; callback := Step 9%nat |};
      Ev_handle_cancel {| hid := 0; callback := Step 9%nat |};
      Ev_enter_task 4%nat]).
Proof.
  exact (proj1 (eager_call_soon_fails_when_step_leaves_task_current
                  Cases.entering (Step 9%nat) Sample.eager_loop
                  (l4 := set_current_task (Some 9%nat)
                           (suspended (Step 9%nat) Sample.eager_loop))
                  (r := Return tt) (task := 4%nat) (other := 9%nat)
                  eq_refl eq_refl eq_refl eq_refl eq_refl)).
Defined.

(** ** Ticks and the queue of notifications *)

(** X12.  A tick that arrives on a closed loop, or on a loop that is not
    running, fails its assertion before anything happens: the batch is
    not run, no notification is enqueued, [__blocked_in_select] keeps
    its value and the loop is unchanged. *)
Theorem tick_asserts_before_touching_the_loop :
  forall (E : Collaborators) (l : Loop),
    (is_closed l = true ->
     __process_asyncio_events l = (Raise (AssertionError 0), l, []))
    /\ (is_closed l = false -> is_running l = false ->
        __process_asyncio_events l = (Raise (AssertionError 1), l, [])).
Proof.
  intros E l. split.
  - apply tick_on_closed_loop.
  - apply tick_on_stopped_loop.
Qed.

Lemma tick_asserts_before_touching_the_loop_witness :
  @__process_asyncio_events Sample.failing Sample.new_loop
  = (Raise (AssertionError 1), Sample.new_loop, []).
Proof.
  exact (proj2 (tick_asserts_before_touching_the_loop
                  Sample.failing Sample.new_loop)
               eq_refl eq_refl).
Defined.

Section DeliveryFacts.

Context `{Collaborators}.

Lemma tick_trace_of_tick (l : Loop) :
  Scheduling.tick_trace (snd (__process_asyncio_events l)).
Proof.
  unfold Scheduling.tick_trace.
  destruct (is_closed l) eqn:Hc.
  - rewrite (tick_on_closed_loop l Hc). left. reflexivity.
  - destruct (is_running l) eqn:Hr.
    + rewrite (tick_unfold l Hc Hr).
      destruct (_run_once (set_blocked_in_select false l)) as [[u|exc] l1].
      * destruct (_stopping l1); destruct (__qt_event_loop l1);
          destruct (__notifier l1); simpl; eauto.
      * destruct (is_AsyncSlotYield exc); destruct (__qt_event_loop l1);
          simpl; eauto.
    + rewrite (tick_on_stopped_loop l Hc Hr). left. reflexivity.
Qed.

Hypothesis batch_keeps_notifier :
  forall l0 : Loop, __notifier (snd (_run_once l0)) = __notifier l0.

Lemma tick_queues_at_most_one (l : Loop) (n : Notifier.t BoundMethod) :
  __notifier l = Some n ->
  (Scheduling.queued (snd (fst (__process_asyncio_events l)))
   <= S (Notifier.posted n))%nat.
Proof.
  intros Hn. unfold Scheduling.queued.
  destruct (is_closed l) eqn:Hc.
  - rewrite (tick_on_closed_loop l Hc). simpl. rewrite Hn. lia.
  - destruct (is_running l) eqn:Hr.
    + rewrite (tick_unfold l Hc Hr).
      pose proof (batch_keeps_notifier (set_blocked_in_select false l)) as Hk.
      destruct (_run_once (set_blocked_in_select false l)) as [[u|exc] l1].
      * simpl in Hk. rewrite Hn in Hk. rewrite Hk.
        assert (Hnot : (Notifier.posted (Notifier.notify n)
                        <= S (Notifier.posted n))%nat)
          by (unfold Notifier.notify; destruct (Notifier.connected n);
              simpl; lia).
        destruct (_stopping l1); destruct (__qt_event_loop l1);
          simpl; rewrite ?Hk; try exact Hnot; lia.
      * simpl in Hk. rewrite Hn in Hk.
        destruct (is_AsyncSlotYield exc); destruct (__qt_event_loop l1);
          simpl; rewrite Hk; lia.
    + rewrite (tick_on_stopped_loop l Hc Hr). simpl. rewrite Hn. lia.
Qed.

Lemma delivery_does_not_grow_queue (l : Loop) :
  (Scheduling.queued (snd (fst (Scheduling.deliver_notification l)))
   <= Scheduling.queued l)%nat.
Proof.
  rewrite deliver_unfold.
  destruct (__notifier l) as [n|] eqn:Hn; [| simpl; lia].
  destruct (Notifier.posted n) as [|k] eqn:Hp; [simpl; lia |].
  cbv zeta.
  destruct (Notifier._callback n) eqn:Hcb.
  - etransitivity.
    + apply tick_queues_at_most_one. reflexivity.
    + unfold Scheduling.queued. rewrite Hn, Hp. simpl. lia.
  - unfold Scheduling.queued. rewrite Hn, Hp. simpl. lia.
Qed.

Lemma deliveries_do_not_grow_queue (k : nat) :
  forall l : Loop,
    (Scheduling.queued (Scheduling.deliver_notifications k l)
     <= Scheduling.queued l)%nat.
Proof.
  induction k as [|k IH]; intros l; simpl.
  - lia.
  - etransitivity; [apply IH | apply delivery_does_not_grow_queue].
Qed.

End DeliveryFacts.

(** X13.  The ticks do not pile up.  A delivery of a queued notification
    takes one emission from the queue and runs the handler once, which
    runs the batch at most once and then calls at most one of [notify]
    and [exit]; with nothing queued it does nothing.  If the batch leaves
    the notifier alone, no delivery makes the queue longer, so after any
    number of deliveries a loop that had at most one notification
    queued, as [__enter__] leaves it, still has at most one. *)
Theorem deliveries_keep_at_most_one_notification_queued :
  forall (E : Collaborators) (l : Loop) (k : nat),
    (forall l0 : Loop, __notifier (snd (_run_once l0)) = __notifier l0) ->
    (Scheduling.queued l <= 1)%nat ->
    (Scheduling.queued (Scheduling.deliver_notifications k l) <= 1)%nat
    /\ (Scheduling.queued (Scheduling.deliver_notifications k l)
        <= Scheduling.queued l)%nat
    /\ (forall l0 : Loop,
           Scheduling.tick_trace (snd (Scheduling.deliver_notification l0)))
    /\ (forall l0 : Loop,
           Scheduling.queued l0 = 0%nat ->
           Scheduling.deliver_notification l0 = (Return tt, l0, [])).
Proof.
  intros E l k Hkeep Hq.
  pose proof (deliveries_do_not_grow_queue Hkeep k l) as Hle.
  split; [lia | split; [exact Hle | split]].
  - intros l0. rewrite deliver_unfold.
    destruct (__notifier l0) as [n|]; [| left; reflexivity].
    destruct (Notifier.posted n); [left; reflexivity |].
    cbv zeta. destruct (Notifier._callback n).
    + apply tick_trace_of_tick.
    + left. reflexivity.
  - intros l0 H0. rewrite deliver_unfold. unfold Scheduling.queued in H0.
    destruct (__notifier l0) as [n|]; [| reflexivity].
    rewrite H0. reflexivity.
Qed.

Lemma deliveries_keep_at_most_one_notification_queued_witness :
  (Scheduling.queued
     (@Scheduling.deliver_notifications Sample.completing 3
        Sample.attached_loop) <= 1)%nat.
Proof.
  refine (proj1 (deliveries_keep_at_most_one_notification_queued
                   Sample.completing Sample.attached_loop 3 _ _)).
  - intros l0. reflexivity.
  - apply le_n.
Defined.

(** X14.  On a loop that is not closed and is blocked in select,
    [call_at] sends one byte to the self-pipe and then gives the outcome
    of the inherited [call_at], value or exception, run on the loop after
    that write.  [call_later] sends two: its own, and that of [call_at],
    through which the inherited [call_later] schedules the timer at
    [time() + delay], the clock being read after the first write.  On a
    loop that is not blocked neither sends anything and the inherited
    [call_at] runs on the loop as it is.  [call_later] without a delay
    raises [TypeError] after its wake-up and schedules nothing.  Neither
    consults the eager flag. *)
Theorem timers_wake_blocked_loop_then_delegate :
  forall (Timer Time : Type) (time : Loop -> Time)
         (add : Time -> Time -> Time)
         (base_at : option Time -> Callback -> Loop -> Result Timer * Loop)
         (cb : Callback) (l : Loop),
    _closed l = false ->
    (forall w : option Time,
        Scheduling.call_at base_at w cb l
        = (let '(r, l') := base_at w cb (woken l) in (r, l', wake_events l)))
    /\ (forall d : Time,
           Scheduling.call_later time add base_at (Some d) cb l
           = (let '(r, l') :=
                base_at (Some (add (time (woken l)) d)) cb (woken (woken l)) in
              (r, l', wake_events l ++ wake_events l)))
    /\ Scheduling.call_later time add base_at None cb l
       = (Raise TypeError, woken l, wake_events l)
    /\ (__blocked_in_select l = true ->
        writes_to_self (woken l) = S (writes_to_self l)
        /\ writes_to_self (woken (woken l)) = S (S (writes_to_self l))
        /\ wake_events l = [Ev_write_to_self])
    /\ (__blocked_in_select l = false ->
        woken l = l /\ woken (woken l) = l /\ wake_events l = [])
    /\ __call_soon_eagerly (woken (woken l)) = __call_soon_eagerly l
    /\ _ready (woken (woken l)) = _ready l.
Proof.
  intros Timer Time time add base_at cb l Hc.
  assert (Hat : forall (w : option Time) (l0 : Loop),
             _closed l0 = false ->
             Scheduling.call_at base_at w cb l0
             = (let '(r, l') := base_at w cb (woken l0) in
                (r, l', wake_events l0))).
  { intros w l0 H0.
    unfold Scheduling.call_at, Scheduling.inherited, woken, wake_events,
      when, _write_to_self, bind, get, modify, emit, ret.
    destruct (__blocked_in_select l0); simpl; rewrite ?H0; simpl.
    - destruct (base_at w cb _) as [[tm|e] l1]; reflexivity.
    - destruct (base_at w cb l0) as [[tm|e] l1]; reflexivity. }
  assert (Hcw : _closed (woken l) = false)
    by (unfold woken; destruct (__blocked_in_select l); exact Hc).
  split; [intros w; apply Hat; exact Hc |].
  split.
  { intros d.
    unfold Scheduling.call_later, Scheduling.BaseEventLoop_call_later.
    unfold bind at 1, get at 1. cbn [fst snd].
    assert (Hw : (when (__blocked_in_select l) _write_to_self) l
                 = (Return tt, woken l, wake_events l)).
    { unfold woken, wake_events, when, _write_to_self, bind, get, modify,
        emit, ret.
      destruct (__blocked_in_select l); simpl; rewrite ?Hc; reflexivity. }
    unfold bind at 1. rewrite Hw.
    unfold bind at 1, get at 1. cbn [fst snd].
    rewrite (Hat _ (woken l) Hcw).
    assert (Hev : wake_events (woken l) = wake_events l)
      by (unfold wake_events, woken; destruct (__blocked_in_select l) eqn:Hb;
          simpl; rewrite ?Hb; reflexivity).
    rewrite Hev.
    destruct (base_at _ cb (woken (woken l))) as [[tm|e] l1]; simpl;
      rewrite ?app_nil_r; reflexivity. }
  split.
  { unfold Scheduling.call_later, Scheduling.BaseEventLoop_call_later,
      woken, wake_events, when, _write_to_self, bind, get, modify, emit,
      raise, ret.
    destruct (__blocked_in_select l); simpl; rewrite ?Hc; reflexivity. }
  unfold woken, wake_events.
  destruct (__blocked_in_select l) eqn:Hb; simpl; rewrite ?Hb; simpl;
    repeat split; discriminate.
Qed.

Lemma timers_wake_blocked_loop_then_delegate_witness :
  Scheduling.call_later (fun _ : Loop => 100%nat) Nat.add
    (fun (w : option nat) (_ : Callback) (l : Loop) => (Return w, l))
    (Some 5%nat) (Plain 1) Sample.blocked_loop
  = (Return (Some 105%nat),
     set_writes_to_self 2 Sample.blocked_loop,
     [Ev_write_to_self; Ev_write_to_self]).
Proof.
  exact (proj1 (proj2 (@timers_wake_blocked_loop_then_delegate
                         (option nat) nat
                         (fun _ : Loop => 100%nat) Nat.add
                         (fun (w : option nat) (_ : Callback) (l : Loop) =>
                            (Return w, l))
                         (Plain 1) Sample.blocked_loop eq_refl))
               5%nat).
Defined.

(** ** The life of a notifier *)

Lemma notify_open (C : Type) (cb : C) (j p : nat) :
  Nat.iter j Notifier.notify
    {| Notifier._callback := Some cb; Notifier.connected := true;
       Notifier.posted := p |}
  = {| Notifier._callback := Some cb; Notifier.connected := true;
       Notifier.posted := (j + p)%nat |}.
Proof.
  induction j as [|j IH]; simpl.
  - reflexivity.
  - rewrite IH. reflexivity.
Qed.

Lemma notify_closed (C : Type) (k p : nat) :
  Nat.iter k Notifier.notify
    {| Notifier._callback := @None C; Notifier.connected := false;
       Notifier.posted := p |}
  = {| Notifier._callback := None; Notifier.connected := false;
       Notifier.posted := p |}.
Proof.
  induction k as [|k IH]; simpl.
  - reflexivity.
  - rewrite IH. reflexivity.
Qed.

(** X15.  A notifier queues emissions only while it is open.  Created
    with a callback, it starts with nothing queued; [j] calls of [notify]
    queue [j] emissions; after [close], any number of further calls of
    [notify] queue nothing more, while the [j] emissions queued before
    stay queued (they are the late notifications that [_on_notified]
    then drops).  Created without a callback, it fails its assertion. *)
Theorem notifier_queues_only_while_open :
  forall (C : Type) (cb : C) (j k : nat),
    Notifier.__init__ (Some cb)
    = Return {| Notifier._callback := Some cb; Notifier.connected := true;
                Notifier.posted := 0 |}
    /\ Nat.iter j Notifier.notify
         {| Notifier._callback := Some cb; Notifier.connected := true;
            Notifier.posted := 0 |}
       = {| Notifier._callback := Some cb; Notifier.connected := true;
            Notifier.posted := j |}
    /\ Nat.iter k Notifier.notify
         (Notifier.close
            (Nat.iter j Notifier.notify
               {| Notifier._callback := Some cb; Notifier.connected := true;
                  Notifier.posted := 0 |}))
       = {| Notifier._callback := None; Notifier.connected := false;
            Notifier.posted := j |}
    /\ Notifier.__init__ (@None C) = Raise (AssertionError 0).
Proof.
  intros C cb j k.
  rewrite notify_open, Nat.add_0_r.
  split; [reflexivity | split; [reflexivity | split; [| reflexivity]]].
  unfold Notifier.close. simpl. apply notify_closed.
Qed.

(** ** The handler of [asyncsignal] and the loop of its future *)

Section AwaitedFacts.

Context {Arg Cb W : Type}.
Variable has_QVariant : bool.
Variable QVariant_value : Arg -> Arg.
Variable call_soon : Cb -> W -> Result unit * W.

Lemma schedule_callbacks_raise (callbacks : list Cb) :
  forall (w w' : W) (e : exn),
    Awaited.schedule_callbacks call_soon callbacks w = (Raise e, w') ->
    exists (cb : Cb) (w0 : W),
      In cb callbacks /\ call_soon cb w0 = (Raise e, w').
Proof.
  induction callbacks as [|cb rest IH]; intros w w' e Hs; simpl in Hs.
  - discriminate Hs.
  - destruct (call_soon cb w) as [[u|e0] w1] eqn:Hc.
    + destruct (IH w1 w' e Hs) as [cb' [w0 [Hin Hr]]].
      exists cb', w0. split; [right; exact Hin | exact Hr].
    + injection Hs as -> ->. exists cb, w. split; [left; reflexivity | exact Hc].
Qed.

Lemma schedule_callbacks_return (callbacks : list Cb) :
  (forall (cb : Cb) (w0 : W), fst (call_soon cb w0) = Return tt) ->
  forall w : W,
    fst (Awaited.schedule_callbacks call_soon callbacks w) = Return tt.
Proof.
  intros Hall. induction callbacks as [|cb rest IH]; intros w; simpl.
  - reflexivity.
  - pose proof (Hall cb w) as Hc.
    destruct (call_soon cb w) as [[u|e0] w1]; simpl in Hc.
    + apply IH.
    + discriminate Hc.
Qed.

End AwaitedFacts.

(** X16.  The handler connected by [asyncsignal] raises only what
    [call_soon] of the future's loop raises while the done callbacks are
    scheduled, as it does on a closed loop.  On a future that is done, or
    pending with no callback waiting, or when every [call_soon] returns,
    the handler returns and releases its slot object; [set_result] is
    never called on a done future.  When [call_soon] raises, the result
    is stored all the same, the callbacks have been taken from the
    future, and the handler is left before [slot = None]: the slot object
    is still held.  The next invocation finds the future done, returns
    and releases it. *)
Theorem asyncsignal_handler_raises_only_from_call_soon :
  forall (Arg Cb W : Type) (has_QVariant : bool) (QVariant_value : Arg -> Arg)
         (call_soon : Cb -> W -> Result unit * W)
         (args : list Arg) (fr fr' : Awaited.Frame) (w w' : W)
         (r : Result unit),
    Awaited.handler has_QVariant QVariant_value call_soon args fr w
    = (r, fr', w') ->
    Signals.done (Awaited.fut fr') = true
    /\ (Signals.done (Awaited.fut fr) = false ->
        Awaited.fut fr'
        = Signals.Finished
            (Signals.copy_signal_arguments has_QVariant QVariant_value args)
        /\ Awaited._callbacks fr' = [])
    /\ (Signals.done (Awaited.fut fr) = true ->
        r = Return tt /\ Awaited.fut fr' = Awaited.fut fr /\ w' = w)
    /\ (Awaited._callbacks fr = [] -> r = Return tt /\ w' = w)
    /\ ((forall (cb : Cb) (w0 : W), fst (call_soon cb w0) = Return tt) ->
        r = Return tt)
    /\ (r = Return tt -> Awaited.slot fr' = false)
    /\ (forall e : exn,
           r = Raise e ->
           Awaited.slot fr' = Awaited.slot fr
           /\ Signals.done (Awaited.fut fr) = false
           /\ exists (cb : Cb) (w0 : W),
                In cb (Awaited._callbacks fr)
                /\ call_soon cb w0 = (Raise e, w'))
    /\ (forall later : list Arg,
           Awaited.handler has_QVariant QVariant_value call_soon later fr' w'
           = (Return tt,
              {| Awaited.fut := Awaited.fut fr';
                 Awaited._callbacks := Awaited._callbacks fr';
                 Awaited.slot := false |}, w')).
Proof.
  intros Arg Cb W has_QVariant QVariant_value call_soon args fr fr' w w' r Hh.
  unfold Awaited.handler, Awaited.set_result in Hh.
  destruct (Signals.done (Awaited.fut fr)) eqn:Hd; simpl in Hh.
  - injection Hh as <- <- <-. simpl.
    assert (Hlater : forall later : list Arg,
               Awaited.handler has_QVariant QVariant_value call_soon later
                 {| Awaited.fut := Awaited.fut fr;
                    Awaited._callbacks := Awaited._callbacks fr;
                    Awaited.slot := false |} w
               = (Return tt,
                  {| Awaited.fut := Awaited.fut fr;
                     Awaited._callbacks := Awaited._callbacks fr;
                     Awaited.slot := false |}, w))
      by (intros later; unfold Awaited.handler; simpl; rewrite Hd;
          reflexivity).
    split; [exact Hd | split; [discriminate |]].
    split; [intros _; repeat split |].
    split; [intros _; split; reflexivity |].
    split; [reflexivity | split; [reflexivity | split; [| exact Hlater]]].
    intros e He. discriminate He.
  - destruct (Awaited.schedule_callbacks call_soon (Awaited._callbacks fr) w)
      as [[u|e0] w1] eqn:Hs; simpl in Hh; injection Hh as <- <- <-; simpl.
    + split; [reflexivity | split; [intros _; split; reflexivity |]].
      split; [discriminate |].
      split.
      { intros Hnil. rewrite Hnil in Hs. simpl in Hs.
        injection Hs as _ <-. split; reflexivity. }
      split; [reflexivity | split; [reflexivity | split]].
      * intros e He. discriminate He.
      * intros later. reflexivity.
    + split; [reflexivity | split; [intros _; split; reflexivity |]].
      split; [discriminate |].
      split.
      { intros Hnil. rewrite Hnil in Hs. simpl in Hs. discriminate Hs. }
      split.
      { intros Hall.
        pose proof (schedule_callbacks_return call_soon
                      (Awaited._callbacks fr) Hall w) as Hret.
        rewrite Hs in Hret. simpl in Hret. discriminate Hret. }
      split; [discriminate | split].
      * intros e He. injection He as <-.
        split; [reflexivity | split; [reflexivity |]].
        exact (schedule_callbacks_raise call_soon _ _ Hs).
      * intros later. reflexivity.
Qed.

Lemma asyncsignal_handler_raises_only_from_call_soon_witness :
  Awaited.handler true (fun x : nat => x)
    (Cases.loop_call_soon Sample.completing) [7%nat]
    {| Awaited.fut := Signals.Pending; Awaited._callbacks := [Plain 1];
       Awaited.slot := true |}
    Cases.closed_loop
  = (Raise (RuntimeError EventLoopClosed),
     {| Awaited.fut := Signals.Finished [7%nat]; Awaited._callbacks := [];
        Awaited.slot := true |},
     Cases.closed_loop)
  /\ Awaited.handler true (fun x : nat => x)
       (Cases.loop_call_soon Sample.completing) [8%nat]
       {| Awaited.fut := Signals.Finished [7%nat]; Awaited._callbacks := [];
          Awaited.slot := true |}
       Cases.closed_loop
     = (Return tt,
        {| Awaited.fut := Signals.Finished [7%nat]; Awaited._callbacks := [];
           Awaited.slot := false |},
        Cases.closed_loop).
Proof.
  split; [reflexivity |].
  exact (proj2 (proj2 (proj2 (proj2 (proj2 (proj2 (proj2
           (@asyncsignal_handler_raises_only_from_call_soon
              nat Callback Loop true (fun x : nat => x)
              (Cases.loop_call_soon Sample.completing) [7%nat]
              {| Awaited.fut := Signals.Pending;
                 Awaited._callbacks := [Plain 1]; Awaited.slot := true |}
              {| Awaited.fut := Signals.Finished [7%nat];
                 Awaited._callbacks := []; Awaited.slot := true |}
              Cases.closed_loop Cases.closed_loop
              (Raise (RuntimeError EventLoopClosed)) eq_refl)))))))
          [8%nat]).
Defined.

(** ** The bouncing ball *)

Section BouncingFacts.

Import BouncingWidget.
Local Open Scope Z_scope.

(** One axis of [timerEvent]. *)
Lemma timerEvent_x (w h : Z) (s : t) :
  let x := _x s + _vx s in
  (x < 0 -> _x (timerEvent w h s) = - x /\ _vx (timerEvent w h s) = - _vx s)
  /\ (0 <= x -> w < x + _d s ->
      _x (timerEvent w h s) = w - _d s /\ _vx (timerEvent w h s) = - _vx s)
  /\ (0 <= x -> x + _d s <= w ->
      _x (timerEvent w h s) = x /\ _vx (timerEvent w h s) = _vx s).
Proof.
  cbv zeta. unfold timerEvent. rewrite !Z.gtb_ltb.
  destruct (Z.ltb_spec (_x s + _vx s) 0);
    destruct (Z.ltb_spec w (_x s + _vx s + _d s));
    destruct (_y s + _vy s <? 0);
    destruct (h <? _y s + _vy s + _d s); simpl;
    repeat split; intros; lia.
Qed.

Lemma timerEvent_y (w h : Z) (s : t) :
  let y := _y s + _vy s in
  (y < 0 -> _y (timerEvent w h s) = - y /\ _vy (timerEvent w h s) = - _vy s)
  /\ (0 <= y -> h < y + _d s ->
      _y (timerEvent w h s) = h - _d s /\ _vy (timerEvent w h s) = - _vy s)
  /\ (0 <= y -> y + _d s <= h ->
      _y (timerEvent w h s) = y /\ _vy (timerEvent w h s) = _vy s).
Proof.
  cbv zeta. unfold timerEvent. rewrite !Z.gtb_ltb.
  destruct (Z.ltb_spec (_y s + _vy s) 0);
    destruct (Z.ltb_spec h (_y s + _vy s + _d s));
    destruct (_x s + _vx s <? 0);
    destruct (w <? _x s + _vx s + _d s); simpl;
    repeat split; intros; lia.
Qed.

Lemma timerEvent_d (w h : Z) (s : t) : _d (timerEvent w h s) = _d s.
Proof.
  unfold timerEvent.
  destruct (_x s + _vx s <? 0); destruct (_x s + _vx s + _d s >? w);
    destruct (_y s + _vy s <? 0); destruct (_y s + _vy s + _d s >? h);
    reflexivity.
Qed.

Lemma timerEvent_step (w h : Z) (s : t) :
  0 <= _x s -> 0 <= _y s ->
  Z.abs (_vx s) <= w - _d s -> Z.abs (_vy s) <= h - _d s ->
  inside w h (timerEvent w h s)
  /\ Z.abs (_vx (timerEvent w h s)) = Z.abs (_vx s)
  /\ Z.abs (_vy (timerEvent w h s)) = Z.abs (_vy s).
Proof.
  intros Hx Hy Hvx Hvy. unfold inside. rewrite timerEvent_d.
  destruct (timerEvent_x w h s) as [X1 [X2 X3]].
  destruct (timerEvent_y w h s) as [Y1 [Y2 Y3]].
  cbv zeta in *.
  assert (HX : 0 <= _x (timerEvent w h s)
               /\ _x (timerEvent w h s) + _d s <= w
               /\ Z.abs (_vx (timerEvent w h s)) = Z.abs (_vx s)).
  { destruct (Z.lt_ge_cases (_x s + _vx s) 0) as [Hn|Hn].
    - destruct (X1 Hn) as [-> ->]. lia.
    - destruct (Z.lt_ge_cases w (_x s + _vx s + _d s)) as [Hw|Hw].
      + destruct (X2 Hn Hw) as [-> ->]. lia.
      + destruct (X3 Hn Hw) as [-> ->]. lia. }
  assert (HY : 0 <= _y (timerEvent w h s)
               /\ _y (timerEvent w h s) + _d s <= h
               /\ Z.abs (_vy (timerEvent w h s)) = Z.abs (_vy s)).
  { destruct (Z.lt_ge_cases (_y s + _vy s) 0) as [Hn|Hn].
    - destruct (Y1 Hn) as [-> ->]. lia.
    - destruct (Z.lt_ge_cases h (_y s + _vy s + _d s)) as [Hw|Hw].
      + destruct (Y2 Hn Hw) as [-> ->]. lia.
      + destruct (Y3 Hn Hw) as [-> ->]. lia. }
  intuition.
Qed.

Lemma timerEvents_launched (sizes : list (Z * Z)) :
  forall s : t,
    launched s ->
    Forall (fun wh => 40 <= fst wh /\ 40 <= snd wh) sizes ->
    launched (timerEvents sizes s).
Proof.
  induction sizes as [|[w h] rest IH]; intros s Hl Hs; simpl.
  - exact Hl.
  - inversion Hs as [|? ? [Hw Hh] Hrest]; subst. simpl in Hw, Hh.
    apply IH; [| exact Hrest].
    destruct Hl as [Hx [Hy [Hd [Hvx Hvy]]]].
    destruct (timerEvent_step w h s Hx Hy) as [[Ix [_ [Iy _]]] [Ax Ay]];
      try lia.
    unfold launched. rewrite timerEvent_d. intuition lia.
Qed.

Lemma timerEvents_app (sizes : list (Z * Z)) (w h : Z) :
  forall s : t,
    timerEvents (sizes ++ [(w, h)]) s = timerEvent w h (timerEvents sizes s).
Proof.
  induction sizes as [|[w0 h0] rest IH]; intros s; simpl.
  - reflexivity.
  - apply IH.
Qed.

End BouncingFacts.

(** X17.  One timer event moves the ball by its velocity on each axis
    when that keeps it between the walls; a ball that would cross the
    far wall is put against it and a ball that would cross the near wall
    is mirrored back, and in both cases the velocity on that axis is
    reversed.  The diameter and the speed on each axis never change.
    For a ball at non-negative coordinates in a widget that exceeds the
    diameter by at least the speed on each axis, the ball is inside the
    widget after the event. *)
Theorem timer_event_bounces_ball_inside_widget :
  forall (w h : Z) (s : BouncingWidget.t),
    (0 <= BouncingWidget._x s)%Z ->
    (0 <= BouncingWidget._y s)%Z ->
    (Z.abs (BouncingWidget._vx s) <= w - BouncingWidget._d s)%Z ->
    (Z.abs (BouncingWidget._vy s) <= h - BouncingWidget._d s)%Z ->
    let s' := BouncingWidget.timerEvent w h s in
    let x := (BouncingWidget._x s + BouncingWidget._vx s)%Z in
    let y := (BouncingWidget._y s + BouncingWidget._vy s)%Z in
    BouncingWidget.inside w h s'
    /\ Z.abs (BouncingWidget._vx s') = Z.abs (BouncingWidget._vx s)
    /\ Z.abs (BouncingWidget._vy s') = Z.abs (BouncingWidget._vy s)
    /\ BouncingWidget._d s' = BouncingWidget._d s
    /\ ((x < 0)%Z ->
        BouncingWidget._x s' = (- x)%Z
        /\ BouncingWidget._vx s' = (- BouncingWidget._vx s)%Z)
    /\ ((0 <= x)%Z -> (w < x + BouncingWidget._d s)%Z ->
        BouncingWidget._x s' = (w - BouncingWidget._d s)%Z
        /\ BouncingWidget._vx s' = (- BouncingWidget._vx s)%Z)
    /\ ((0 <= x)%Z -> (x + BouncingWidget._d s <= w)%Z ->
        BouncingWidget._x s' = x
        /\ BouncingWidget._vx s' = BouncingWidget._vx s)
    /\ ((y < 0)%Z ->
        BouncingWidget._y s' = (- y)%Z
        /\ BouncingWidget._vy s' = (- BouncingWidget._vy s)%Z)
    /\ ((0 <= y)%Z -> (h < y + BouncingWidget._d s)%Z ->
        BouncingWidget._y s' = (h - BouncingWidget._d s)%Z
        /\ BouncingWidget._vy s' = (- BouncingWidget._vy s)%Z)
    /\ ((0 <= y)%Z -> (y + BouncingWidget._d s <= h)%Z ->
        BouncingWidget._y s' = y
        /\ BouncingWidget._vy s' = BouncingWidget._vy s).
Proof.
  intros w h s Hx Hy Hvx Hvy. cbv zeta.
  destruct (timerEvent_step w h s Hx Hy Hvx Hvy) as [Hin [Ax Ay]].
  destruct (timerEvent_x w h s) as [X1 [X2 X3]]. cbv zeta in X1, X2, X3.
  destruct (timerEvent_y w h s) as [Y1 [Y2 Y3]]. cbv zeta in Y1, Y2, Y3.
  split; [exact Hin | split; [exact Ax | split; [exact Ay | split;
    [apply timerEvent_d | split; [exact X1 | split; [exact X2 | split;
    [exact X3 | split; [exact Y1 | split; [exact Y2 | exact Y3]]]]]]]]].
Qed.

Lemma timer_event_bounces_ball_inside_widget_witness :
  BouncingWidget.inside 45 40
    (BouncingWidget.timerEvent 45 40
       {| BouncingWidget._x := 20; BouncingWidget._y := 3;
          BouncingWidget._d := 20; BouncingWidget._vx := 10;
          BouncingWidget._vy := (-5) |})
  /\ BouncingWidget.timerEvent 45 40
       {| BouncingWidget._x := 20; BouncingWidget._y := 3;
          BouncingWidget._d := 20; BouncingWidget._vx := 10;
          BouncingWidget._vy := (-5) |}
     = {| BouncingWidget._x := 25; BouncingWidget._y := 2;
          BouncingWidget._d := 20; BouncingWidget._vx := (-10);
          BouncingWidget._vy := 5 |}.
Proof.
  split; [| reflexivity].
  refine (proj1 (timer_event_bounces_ball_inside_widget 45 40
                   {| BouncingWidget._x := 20; BouncingWidget._y := 3;
                      BouncingWidget._d := 20; BouncingWidget._vx := 10;
                      BouncingWidget._vy := (-5) |} _ _ _ _));
    simpl; lia.
Defined.

(** X18.  From the state set by [__init__], after any sequence of timer
    events during which the widget is never smaller than the minimum
    size given to [setMinimumSize] (40 by 40, twice the diameter), the
    ball is inside the widget, however the widget was resized between
    the events; so the ellipse drawn by [paintEvent] for that size lies
    within the rectangle it draws.  The diameter is still 20 and the
    speeds are still 10 and 5. *)
Theorem ball_stays_inside_widget_of_minimum_size :
  forall (sizes : list (Z * Z)) (w h : Z),
    Forall (fun wh => (40 <= fst wh)%Z /\ (40 <= snd wh)%Z) sizes ->
    (40 <= w)%Z -> (40 <= h)%Z ->
    let s := BouncingWidget.timerEvents (sizes ++ [(w, h)])
               (fst (fst BouncingWidget.__init__)) in
    snd (fst BouncingWidget.__init__) = (40, 40)%Z
    /\ BouncingWidget.inside w h s
    /\ BouncingWidget.launched s
    /\ (exists x y : Z,
           BouncingWidget.paintEvent w h s
           = [BouncingWidget.setRenderHint_Antialiasing;
              BouncingWidget.drawRect 0 0 w h;
              BouncingWidget.setBrush_black;
              BouncingWidget.drawEllipse x y 20 20]
           /\ (0 <= x)%Z /\ (x + 20 <= w)%Z
           /\ (0 <= y)%Z /\ (y + 20 <= h)%Z).
Proof.
  intros sizes w h Hs Hw Hh. cbv zeta.
  assert (H0 : BouncingWidget.launched (fst (fst BouncingWidget.__init__)))
    by (unfold BouncingWidget.launched; simpl; lia).
  pose proof (timerEvents_launched H0 Hs) as Hl.
  rewrite timerEvents_app.
  set (s0 := BouncingWidget.timerEvents sizes
               (fst (fst BouncingWidget.__init__))) in *.
  destruct Hl as [Hx [Hy [Hd [Hvx Hvy]]]].
  destruct (timerEvent_step w h s0 Hx Hy) as [Hin [Ax Ay]]; try lia.
  pose proof (timerEvent_d w h s0) as Hd'.
  assert (Hl' : BouncingWidget.launched (BouncingWidget.timerEvent w h s0)).
  { unfold BouncingWidget.launched, BouncingWidget.inside in *.
    intuition lia. }
  split; [reflexivity | split; [exact Hin | split; [exact Hl' |]]].
  exists (BouncingWidget._x (BouncingWidget.timerEvent w h s0)),
         (BouncingWidget._y (BouncingWidget.timerEvent w h s0)).
  unfold BouncingWidget.paintEvent, BouncingWidget.inside in *.
  rewrite Hd', Hd. rewrite Hd', Hd in Hin. intuition.
Qed.

Lemma ball_stays_inside_widget_of_minimum_size_witness :
  BouncingWidget.inside 40 90
    (BouncingWidget.timerEvents [(300, 200); (60, 40); (40, 90)]%Z
       (fst (fst BouncingWidget.__init__))).
Proof.
  refine (proj1 (proj2 (@ball_stays_inside_widget_of_minimum_size
                          [(300, 200); (60, 40)]%Z 40 90 _ _ _))).
  - repeat constructor; simpl; lia.
  - lia.
  - lia.
Defined.

(** ** Wake-ups follow the ticks *)

(** X19.  Whether a scheduling call writes to the self-pipe is decided
    by the last tick.  After a tick whose batch yielded, [stop] and
    [call_soon] each begin with a write to the self-pipe.  The batch of
    every tick runs on a loop with the flag cleared, so that a [stop] or
    a [call_soon] made by a callback of the batch, before anything else
    sets the flag, writes nothing to the self-pipe. *)
Theorem scheduling_wakes_loop_only_after_a_yielded_tick :
  forall (E : Collaborators) (l l1 : Loop) (cb : Callback),
    is_closed l = false ->
    is_running l = true ->
    _run_once (set_blocked_in_select false l) = (Raise AsyncSlotYield, l1) ->
    _closed l1 = false ->
    __call_soon_eagerly l1 = false ->
    let after := snd (fst (__process_asyncio_events l)) in
    let during := set_blocked_in_select false l in
    stop after
    = (Return tt,
       set_stopping true (set_writes_to_self (S (writes_to_self l1)) after),
       [Ev_write_to_self; Ev_super_stop])
    /\ snd (call_soon cb after)
       = [Ev_write_to_self; Ev_super_call_soon (new_handle cb l1)]
    /\ stop during = (Return tt, set_stopping true during, [Ev_super_stop])
    /\ (_closed l = false -> __call_soon_eagerly l = false ->
        snd (call_soon cb during) = [Ev_super_call_soon (new_handle cb l)]).
Proof.
  intros E l l1 cb Hc Hr Hb Hc1 He1. cbv zeta.
  rewrite (tick_unfold l Hc Hr), Hb. simpl.
  split; [| split; [| split]].
  - rewrite stop_unfold; [reflexivity | exact Hc1].
  - rewrite call_soon_queued_unfold; [reflexivity | exact Hc1 | exact He1].
  - rewrite stop_unfold; [reflexivity | exact Hc].
  - intros Hcl Hel.
    rewrite call_soon_queued_unfold; [reflexivity | exact Hcl | exact Hel].
Qed.

Lemma scheduling_wakes_loop_only_after_a_yielded_tick_witness :
  stop (snd (fst (@__process_asyncio_events Sample.yielding
                    Sample.attached_loop)))
  = (Return tt,
     set_stopping true
       (set_writes_to_self 1
          (snd (fst (@__process_asyncio_events Sample.yielding
                       Sample.attached_loop)))),
     [Ev_write_to_self; Ev_super_stop])
  /\ snd (@call_soon Sample.yielding (Plain 7)
            (set_blocked_in_select false Sample.attached_loop))
     = [Ev_super_call_soon {| hid := 0; callback := Plain 7 |}].
Proof.
  destruct (scheduling_wakes_loop_only_after_a_yielded_tick
              Sample.yielding Sample.attached_loop
              (l1 := set_blocked_in_select false Sample.attached_loop)
              (Plain 7) eq_refl eq_refl eq_refl eq_refl eq_refl)
    as [Hstop [_ [_ Hsoon]]].
  split; [exact Hstop | exact (Hsoon eq_refl eq_refl)].
Defined.
